(** * bodystat: the measurement-record store and the progress/history engine

    A shallow embedding of [main.py]: the per-user JSON store
    ([UserStatsManager]), the authorization gate ([is_user_authorized]) and the
    computations behind the progress and history replies ([show_progress],
    [show_history_period]).

    Conventions.
    - A value read back by [json.load] is a [json] term; measurements are IEEE
      doubles, exactly Python's [float] (primitive floats).
    - A Python exception is a [Raise e] result; [x ← c; k] sequences calls and
      stops at the first exception, as Python does.
    - The reply texts are kept as constructors that carry the interpolated
      values; the wording and the [.1f] rounding of the f-strings are not
      modelled. *)

From Stdlib Require Import PrimFloat ZArith String Ascii List.
From stdpp Require Import gmap strings list pretty.

Set Warnings "-register-all".
Local Open Scope string_scope.
Local Open Scope Z_scope.

(** ** Exceptions and results *)

Inductive exn : Set :=
| KeyError | TypeError | AttributeError | IndexError
| ValueError | UnicodeDecodeError | OverflowError | RecursionError.

Inductive result (A : Type) : Type :=
| Ok (a : A)
| Raise (e : exn).
Arguments Ok {A} a.
Arguments Raise {A} e.

#[global] Instance result_ret : MRet result := fun A a => Ok a.
#[global] Instance result_bind : MBind result := fun A B f r =>
  match r with
  | Ok a => f a
  | Raise e => Raise e
  end.
#[global] Instance result_fmap : FMap result := fun A B f r =>
  match r with
  | Ok a => Ok (f a)
  | Raise e => Raise e
  end.

Definition returns {A} (r : result A) : Prop := ∃ a, r = Ok a.

(** ** Python values, as [json.load] builds them *)

Inductive json : Type :=
| JNull
| JBool (b : bool)
| JNum (x : float)
| JStr (s : string)
| JArr (items : list json)
| JObj (fields : list (string * json)).

(** [d[k]] on a dict: the fields are kept in insertion order, keys unique. *)
Fixpoint assoc (k : string) (fields : list (string * json)) : option json :=
  match fields with
  | [] => None
  | (k', v) :: rest => if String.eqb k k' then Some v else assoc k rest
  end.

(** The object a name in a dict is bound to is replaced: this is how the
    in-place [append] on the list held by [data] shows in [data]. *)
Fixpoint assoc_set (k : string) (v : json) (fields : list (string * json))
  : list (string * json) :=
  match fields with
  | [] => []
  | (k', v') :: rest =>
      if String.eqb k k' then (k', v) :: rest else (k', v') :: assoc_set k v rest
  end.

(** The characters of a [str], each a [str] of length one. *)
Definition py_chars (s : string) : list json :=
  map (fun c => JStr (String c EmptyString)) (list_ascii_of_string s).

(** [bool(v)]: [None], [False], zero, and the empty string, list and dict
    are false. *)
Definition truth (v : json) : bool :=
  match v with
  | JNull => false
  | JBool b => b
  | JNum x => negb (PrimFloat.eqb x 0%float)
  | JStr s => negb (String.eqb s "")
  | JArr items => match items with [] => false | _ => true end
  | JObj fields => match fields with [] => false | _ => true end
  end.

(** [v["k"]] with a string key. *)
Definition getitem (v : json) (k : string) : result json :=
  match v with
  | JObj fields =>
      match assoc k fields with
      | Some x => Ok x
      | None => Raise KeyError
      end
  | _ => Raise TypeError
  end.

(** [l[-i]] on a Python sequence, [i >= 1]. *)
Definition from_end (l : list json) (i : nat) : result json :=
  if bool_decide (1 ≤ i ≤ length l)%nat then
    match l !! (length l - i)%nat with
    | Some x => Ok x
    | None => Raise IndexError
    end
  else Raise IndexError.

(** [v[-i]]: an integer subscript on a dict is a missing key. *)
Definition getitem_neg (v : json) (i : nat) : result json :=
  match v with
  | JArr items => from_end items i
  | JStr s => from_end (py_chars s) i
  | JObj _ => Raise KeyError
  | _ => Raise TypeError
  end.

(** [v[0]]. *)
Definition getitem_first (v : json) : result json :=
  match v with
  | JArr items => match items with x :: _ => Ok x | [] => Raise IndexError end
  | JStr s => match py_chars s with x :: _ => Ok x | [] => Raise IndexError end
  | JObj _ => Raise KeyError
  | _ => Raise TypeError
  end.

(** [len(v)]. *)
Definition py_len (v : json) : result nat :=
  match v with
  | JArr items => Ok (length items)
  | JStr s => Ok (String.length s)
  | JObj fields => Ok (length fields)
  | _ => Raise TypeError
  end.

(** [for x in v]: a dict yields its keys, a string its characters. *)
Definition py_iter (v : json) : result (list json) :=
  match v with
  | JArr items => Ok items
  | JStr s => Ok (py_chars s)
  | JObj fields => Ok (map (fun kv => JStr (fst kv)) fields)
  | _ => Raise TypeError
  end.

(** [v[:n]]. A slice of a dict raises ([TypeError]; [KeyError] from
    Python 3.12 on, where slices are hashable). *)
Definition slice_to (n : nat) (v : json) : result json :=
  match v with
  | JArr items => Ok (JArr (take n items))
  | JStr s => Ok (JStr (String.substring 0 n s))
  | _ => Raise TypeError
  end.

(** [v[-n:]]. *)
Definition slice_last (n : nat) (v : json) : result json :=
  match v with
  | JArr items => Ok (JArr (drop (length items - n) items))
  | JStr s => Ok (JStr (String.substring (String.length s - n) n s))
  | _ => Raise TypeError
  end.

(** [a - b] on numbers; a [bool] counts as 0 or 1. Integer literals of a
    document are read here as the double of the same value. *)
Definition as_number (v : json) : option float :=
  match v with
  | JNum x => Some x
  | JBool true => Some 1%float
  | JBool false => Some 0%float
  | _ => None
  end.

Definition py_sub (a b : json) : result float :=
  match as_number a, as_number b with
  | Some x, Some y => Ok (PrimFloat.sub x y)
  | _, _ => Raise TypeError
  end.

(** [l.append(x)]: only a list has the method. *)
Definition py_append (v x : json) : result json :=
  match v with
  | JArr items => Ok (JArr (items ++ [x]))
  | _ => Raise AttributeError
  end.

(** ** Time: [datetime], [timedelta], [strftime] and [strptime]

    A [datetime] is the number of microseconds since 0001-01-01 00:00:00, the
    first instant Python can represent; the last one is 9999-12-31
    23:59:59.999999. The calendar arithmetic is the proleptic Gregorian one of
    the [datetime] module. *)

Definition datetime := Z.

Definition usec_per_sec : Z := 1000000.
Definition usec_per_day : Z := 86400 * usec_per_sec.
(** [date.max.toordinal()] *)
Definition MAXORDINAL : Z := 3652059.
Definition datetime_end : Z := MAXORDINAL * usec_per_day.

Definition in_range (t : Z) : bool := (0 <=? t) && (t <? datetime_end).

Definition is_leap (year : Z) : bool :=
  (year mod 4 =? 0) && (negb (year mod 100 =? 0) || (year mod 400 =? 0)).

Definition days_before_year (year : Z) : Z :=
  let y := year - 1 in y * 365 + y / 4 - y / 100 + y / 400.

Definition days_in_month (year month : Z) : Z :=
  if (month =? 2) && is_leap year then 29
  else nth (Z.to_nat month) [0; 31; 28; 31; 30; 31; 30; 31; 31; 30; 31; 30; 31] 0.

Definition DAYS_BEFORE_MONTH (month : Z) : Z :=
  nth (Z.to_nat month) [0; 0; 31; 59; 90; 120; 151; 181; 212; 243; 273; 304; 334] 0.

Definition days_before_month (year month : Z) : Z :=
  DAYS_BEFORE_MONTH month + (if (2 <? month) && is_leap year then 1 else 0).

Definition ymd2ord (year month day : Z) : Z :=
  days_before_year year + days_before_month year month + day.

Definition DI400Y : Z := days_before_year 401.
Definition DI100Y : Z := days_before_year 101.
Definition DI4Y : Z := days_before_year 5.

Definition ord2ymd (ordinal : Z) : Z * Z * Z :=
  let n := ordinal - 1 in
  let n400 := n / DI400Y in let n := n mod DI400Y in
  let n100 := n / DI100Y in let n := n mod DI100Y in
  let n4 := n / DI4Y in let n := n mod DI4Y in
  let n1 := n / 365 in let n := n mod 365 in
  let year := n400 * 400 + 1 + n100 * 100 + n4 * 4 + n1 in
  if (n1 =? 4) || (n100 =? 4) then (year - 1, 12, 31)
  else
    let leapyear := (n1 =? 3) && (negb (n4 =? 24) || (n100 =? 3)) in
    let month := Z.shiftr (n + 50) 5 in
    let preceding :=
      DAYS_BEFORE_MONTH month + (if (2 <? month) && leapyear then 1 else 0) in
    if n <? preceding then
      let month := month - 1 in
      let preceding :=
        preceding - (nth (Z.to_nat month)
                       [0; 31; 28; 31; 30; 31; 30; 31; 31; 30; 31; 30; 31] 0
                     + (if (month =? 2) && leapyear then 1 else 0)) in
      (year, month, n - preceding + 1)
    else (year, month, n - preceding + 1).

(** [now - timedelta(days=days)]: the [timedelta] takes at most 999999999
    days either way, and the difference must be a representable [datetime]. *)
Definition sub_days (now : datetime) (days : Z) : result datetime :=
  if 999999999 <? Z.abs days then Raise OverflowError
  else
    let t := now - days * usec_per_day in
    if in_range t then Ok t else Raise OverflowError.

Definition digit_char (n : Z) : ascii := ascii_of_nat (48 + Z.to_nat (n mod 10)).

Definition pad2 (n : Z) : list ascii := [digit_char (n / 10); digit_char n].
Definition pad4 (n : Z) : list ascii :=
  [digit_char (n / 1000); digit_char (n / 100); digit_char (n / 10); digit_char n].

(** [t.strftime("%Y-%m-%d %H:%M:%S")]; the microseconds are dropped. (The
    year is written with four digits, as Python does for the years from
    1000 on.) *)
Definition strftime (t : datetime) : string :=
  let secs := t / usec_per_sec in
  let '(y, m, d) := ord2ymd (secs / 86400 + 1) in
  let s := secs mod 86400 in
  string_of_list_ascii
    (pad4 y ++ ["-"%char] ++ pad2 m ++ ["-"%char] ++ pad2 d ++ [" "%char]
     ++ pad2 (s / 3600) ++ [":"%char] ++ pad2 (s mod 3600 / 60) ++ [":"%char]
     ++ pad2 (s mod 60)).

Definition digit_val (c : ascii) : option Z :=
  let n := Z.of_nat (nat_of_ascii c) in
  if (48 <=? n) && (n <=? 57) then Some (n - 48) else None.

Fixpoint number (acc : Z) (cs : list ascii) : option Z :=
  match cs with
  | [] => Some acc
  | c :: rest => d ← digit_val c; number (acc * 10 + d) rest
  end.

(** [datetime.strptime(s, "%Y-%m-%d %H:%M:%S")] on the strings [strftime]
    writes: four digits, then two-digit fields. On every string this
    function reads, Python reads the same instant. Python reads more: one-digit
    fields, any run of white space between date and time, digits outside
    ASCII; such strings are a [ValueError] here, so a statement below either
    assumes that the dates are read by this function ([dated]) or that a
    date is one Python rejects as well ([ascii_text], no year in front). *)
Definition strptime_text (s : string) : result datetime :=
  match list_ascii_of_string s with
  | [y1; y2; y3; y4; a; m1; m2; b; d1; d2; c; h1; h2; d; n1; n2; e; s1; s2] =>
      if Ascii.eqb a "-" && Ascii.eqb b "-" && Ascii.eqb c " "
         && Ascii.eqb d ":" && Ascii.eqb e ":"
      then
        match number 0 [y1; y2; y3; y4], number 0 [m1; m2], number 0 [d1; d2],
              number 0 [h1; h2], number 0 [n1; n2], number 0 [s1; s2] with
        | Some y, Some m, Some dd, Some hh, Some mm, Some ss =>
            if (1 <=? y) && (1 <=? m) && (m <=? 12)
               && (1 <=? dd) && (dd <=? days_in_month y m)
               && (hh <? 24) && (mm <? 60) && (ss <? 60)
            then Ok (((ymd2ord y m dd - 1) * 86400 + hh * 3600 + mm * 60 + ss)
                     * usec_per_sec)
            else Raise ValueError
        | _, _, _, _, _, _ => Raise ValueError
        end
      else Raise ValueError
  | _ => Raise ValueError
  end.

(** The first argument of [strptime] must be a [str]. *)
Definition strptime (v : json) : result datetime :=
  match v with
  | JStr s => strptime_text s
  | _ => Raise TypeError
  end.

(** 2024-03-01 12:30:45.250000 *)
Definition noon_2024_03_01 : datetime :=
  ((ymd2ord 2024 3 1 - 1) * 86400 + 12 * 3600 + 30 * 60 + 45) * usec_per_sec + 250000.


(** ** The files under [user_data/]

    What [open(path, 'r', encoding='utf-8')] followed by [json.load] makes of a
    file that exists: the read fails ([IOError]), the bytes are not UTF-8
    ([UnicodeDecodeError]), the parser rejects the text
    ([json.JSONDecodeError]), the text opens more brackets than the parser
    can follow (about a thousand, one inside the other; [RecursionError],
    whether or not the text is JSON), or the text is the JSON value [data].
    A path with no file is a path the map does not bind ([os.path.exists] is
    false). *)

Inductive document : Type :=
| Unreadable
| Undecodable
| Malformed
| TooDeep
| Parsed (data : json).

(** How the [open(path, 'w')] and [json.dump] of one [save_user_data] call go:
    everything is written; [open] raises [IOError] and the file is not
    touched; or [open] has truncated the file and a later write raises
    [IOError], leaving a file that reads as [torn]. *)
Inductive write_outcome : Type :=
| Written
| OpenFails
| WriteFails (torn : document).

Module UserStatsManager.

Definition DATA_DIR : string := "user_data".

Definition get_user_file_path (user_id : Z) : string :=
  DATA_DIR +:+ "/" +:+ "user_" +:+ pretty user_id +:+ ".json".

Definition empty_history : json := JObj [("records", JArr [])].

Definition load_user_data (fs : gmap string document) (user_id : Z) : result json :=
  match fs !! get_user_file_path user_id with
  | Some (Parsed data) => Ok data
  | Some Malformed => Ok empty_history
  | Some Unreadable => Ok empty_history
  | Some Undecodable => Raise UnicodeDecodeError
  | Some TooDeep => Raise RecursionError
  | None => Ok empty_history
  end.

Definition save_user_data (io : write_outcome) (user_id : Z) (data : json)
    (fs : gmap string document) : bool * gmap string document :=
  match io with
  | Written => (true, <[get_user_file_path user_id := Parsed data]> fs)
  | OpenFails => (false, fs)
  | WriteFails torn => (false, <[get_user_file_path user_id := torn]> fs)
  end.

Definition new_record (date : string) (weight waist hips chest : float) : json :=
  JObj [("date", JStr date); ("weight", JNum weight); ("waist", JNum waist);
        ("hips", JNum hips); ("chest", JNum chest)].

(** [data] after [data["records"].append(record)]. *)
Definition append_record (data record : json) : result json :=
  records ← getitem data "records";
  records' ← py_append records record;
  match data with
  | JObj fields => Ok (JObj (assoc_set "records" records' fields))
  | _ => Raise TypeError
  end.

(** An exception leaves [add_record] before [save_user_data] is called. *)
Definition add_record (now : datetime) (io : write_outcome) (user_id : Z)
    (weight waist hips chest : float) (fs : gmap string document)
  : result bool * gmap string document :=
  match
    data ← load_user_data fs user_id;
    append_record data (new_record (strftime now) weight waist hips chest)
  with
  | Ok data' =>
      let '(saved, fs') := save_user_data io user_id data' fs in (Ok saved, fs')
  | Raise e => (Raise e, fs)
  end.

Definition get_latest_record (fs : gmap string document) (user_id : Z)
  : result (option json) :=
  data ← load_user_data fs user_id;
  records ← getitem data "records";
  if truth records then Some <$> getitem_neg records 1 else Ok None.

Definition get_previous_record (fs : gmap string document) (user_id : Z)
  : result (option json) :=
  data ← load_user_data fs user_id;
  records ← getitem data "records";
  n ← py_len records;
  if bool_decide (2 ≤ n)%nat then Some <$> getitem_neg records 2 else Ok None.

(** The loop of [get_records_by_period]: the first record whose date cannot
    be read ends it with that exception. *)
Fixpoint filter_since (start_date : datetime) (records : list json)
  : result (list json) :=
  match records with
  | [] => Ok []
  | record :: rest =>
      date ← getitem record "date";
      record_date ← strptime date;
      filtered ← filter_since start_date rest;
      Ok (if start_date <=? record_date then record :: filtered else filtered)
  end.

Definition get_records_by_period (now : datetime) (fs : gmap string document)
    (user_id : Z) (days : Z) : result (list json) :=
  data ← load_user_data fs user_id;
  records ← getitem data "records";
  if negb (truth records) then Ok []
  else
    start_date ← sub_days now days;
    items ← py_iter records;
    filter_since start_date items.

End UserStatsManager.
Import UserStatsManager.

(** ** The authorization gate

    The settings come from [config.py]; [ADMIN_USER_ID] is the one global the
    gate assigns, so it is threaded through as state. *)

Record config : Type := {
  OPEN_ACCESS : bool;
  ALLOWED_USER_IDS : list Z;
  ALLOWED_USERNAMES : list string;
  ADMIN_ONLY_MODE : bool
}.

(** [str.lower], on ASCII letters. *)
Definition lower_char (c : ascii) : ascii :=
  let n := nat_of_ascii c in
  if bool_decide (65 ≤ n ≤ 90)%nat then ascii_of_nat (n + 32) else c.

Definition lower (s : string) : string :=
  string_of_list_ascii (map lower_char (list_ascii_of_string s)).

Definition is_user_authorized (cfg : config) (user_id : Z) (username : option string)
    (ADMIN_USER_ID : option Z) : bool * option Z :=
  if OPEN_ACCESS cfg then (true, ADMIN_USER_ID)
  else if ADMIN_ONLY_MODE cfg then
    match ADMIN_USER_ID with
    | None => (true, Some user_id)
    | Some admin => (user_id =? admin, ADMIN_USER_ID)
    end
  else if existsb (Z.eqb user_id) (ALLOWED_USER_IDS cfg) then (true, ADMIN_USER_ID)
  else
    match username with
    | Some name =>
        if negb (String.eqb name "")
           && existsb (String.eqb (lower name)) (map lower (ALLOWED_USERNAMES cfg))
        then (true, ADMIN_USER_ID)
        else (false, ADMIN_USER_ID)
    | None => (false, ADMIN_USER_ID)
    end.

(** The gate called on a sequence of users, one after the other. *)
Fixpoint authorize_all (cfg : config) (callers : list (Z * option string))
    (ADMIN_USER_ID : option Z) : list bool * option Z :=
  match callers with
  | [] => ([], ADMIN_USER_ID)
  | (user_id, username) :: rest =>
      let '(allowed, admin') := is_user_authorized cfg user_id username ADMIN_USER_ID in
      let '(answers, admin'') := authorize_all cfg rest admin' in
      (allowed :: answers, admin'')
  end.

(** ** The front end: validation, progress and history *)

(** The range checks of [process_measurements_input], made before the store
    is touched; each failed check raises [ValueError]. *)
Definition check_ranges (weight waist hips chest : float) : result unit :=
  if negb (PrimFloat.leb 30 weight && PrimFloat.leb weight 300) then Raise ValueError
  else if negb (PrimFloat.leb 40 waist && PrimFloat.leb waist 200) then Raise ValueError
  else if negb (PrimFloat.leb 50 hips && PrimFloat.leb hips 200) then Raise ValueError
  else if negb (PrimFloat.leb 50 chest && PrimFloat.leb chest 200) then Raise ValueError
  else Ok ().

(** The three texts of [format_change]: ["+v unit"], ["v unit"] and
    ["без изменений"] (no change). *)
Inductive change : Type :=
| Increase (value : float)
| Decrease (value : float)
| NoChange.

Definition format_change (value : float) : change :=
  if PrimFloat.ltb 0 value then Increase value
  else if PrimFloat.ltb value 0 then Decrease value
  else NoChange.

(** The four lines under "Изменения с прошлого раза". *)
Record changes : Type := {
  weight_change : change;
  waist_change : change;
  hips_change : change;
  chest_change : change
}.

(** The date and the four values shown for one record. *)
Record shown : Type := {
  shown_date : json;
  shown_weight : json;
  shown_waist : json;
  shown_hips : json;
  shown_chest : json
}.

(** [record['date'][:10]] and the four fields, in the order the f-strings
    read them. *)
Definition show_record (record : json) : result shown :=
  date ← getitem record "date";
  date_str ← slice_to 10 date;
  weight ← getitem record "weight";
  waist ← getitem record "waist";
  hips ← getitem record "hips";
  chest ← getitem record "chest";
  Ok {| shown_date := date_str; shown_weight := weight; shown_waist := waist;
        shown_hips := hips; shown_chest := chest |}.

(** [a[field] - b[field]] *)
Definition field_diff (a b : json) (field : string) : result float :=
  x ← getitem a field;
  y ← getitem b field;
  py_sub x y.

(** The replies of [show_progress]: "no records yet", or the current values
    with, when there is a previous record, the changes since. *)
Inductive progress_reply : Type :=
| NoRecords
| Progress (current : shown) (since_last : option changes).

Definition compare_records (latest previous : json) : result changes :=
  weight_diff ← field_diff latest previous "weight";
  waist_diff ← field_diff latest previous "waist";
  hips_diff ← field_diff latest previous "hips";
  chest_diff ← field_diff latest previous "chest";
  Ok {| weight_change := format_change weight_diff;
        waist_change := format_change waist_diff;
        hips_change := format_change hips_diff;
        chest_change := format_change chest_diff |}.

(** [if x:] on an [Optional[Dict]]. *)
Definition present (x : option json) : option json :=
  match x with
  | Some v => if truth v then Some v else None
  | None => None
  end.

Definition show_progress (fs : gmap string document) (user_id : Z)
  : result progress_reply :=
  latest ← get_latest_record fs user_id;
  previous ← get_previous_record fs user_id;
  match present latest with
  | None => Ok NoRecords
  | Some latest =>
      current ← show_record latest;
      match present previous with
      | Some previous =>
          diffs ← compare_records latest previous;
          Ok (Progress current (Some diffs))
      | None => Ok (Progress current None)
      end
  end.

(** The four totals under "Общие изменения за период". *)
Record totals : Type := {
  weight_total_change : float;
  waist_total_change : float;
  hips_total_change : float;
  chest_total_change : float
}.

(** The replies of [show_history_period]: "nothing found", or the numbered
    lines, the totals when there are two records or more, and, when more
    than ten records were found, the note "Показано последние 10 из [n]
    записей" (the last 10 of [n] records are shown). *)
Inductive history_reply : Type :=
| NothingFound
| History (lines : list (nat * shown)) (summary : option totals)
          (last_10_of : option nat).

(** The records [show_history_period] works on: everything for [days == -1],
    the window of [get_records_by_period] otherwise. *)
Definition history_records (now : datetime) (fs : gmap string document)
    (user_id : Z) (days : Z) : result json :=
  if days =? -1 then
    data ← load_user_data fs user_id;
    getitem data "records"
  else JArr <$> get_records_by_period now fs user_id days.

(** [for i, record in enumerate(display_records, 1)], from number [i] on. *)
Fixpoint history_lines (i : nat) (display_records : list json)
  : result (list (nat * shown)) :=
  match display_records with
  | [] => Ok []
  | record :: rest =>
      line ← show_record record;
      lines ← history_lines (S i) rest;
      Ok ((i, line) :: lines)
  end.

Definition total_changes (records : json) : result totals :=
  first_record ← getitem_first records;
  last_record ← getitem_neg records 1;
  weight ← field_diff last_record first_record "weight";
  waist ← field_diff last_record first_record "waist";
  hips ← field_diff last_record first_record "hips";
  chest ← field_diff last_record first_record "chest";
  Ok {| weight_total_change := weight; waist_total_change := waist;
        hips_total_change := hips; chest_total_change := chest |}.

(** The part of [show_history_period] after the records are chosen. *)
Definition summarize_history (records : json) : result history_reply :=
  if negb (truth records) then Ok NothingFound
  else
    n ← py_len records;
    display_records ←
      (if bool_decide (10 < n)%nat then slice_last 10 records else Ok records);
    items ← py_iter display_records;
    lines ← history_lines 1 items;
    summary ←
      (if bool_decide (2 ≤ n)%nat then Some <$> total_changes records else Ok None);
    Ok (History lines summary (if bool_decide (10 < n)%nat then Some n else None)).

Definition show_history_period (now : datetime) (fs : gmap string document)
    (user_id : Z) (days : Z) : result history_reply :=
  records ← history_records now fs user_id days;
  summarize_history records.

(** ** The store operations, as one family

    [run] performs one operation of the record store for [user_id] and gives
    back what it returned or raised, and the files afterwards. *)

Inductive op : Type :=
| Load
| Append (weight waist hips chest : float)
| Latest
| Previous
| InWindow (days : Z).

Inductive answer : Type :=
| Data (data : json)
| Flag (saved : bool)
| Found (record : option json)
| Window (records : json).

Definition run (now : datetime) (io : write_outcome) (o : op) (user_id : Z)
    (fs : gmap string document) : result answer * gmap string document :=
  match o with
  | Load => (Data <$> load_user_data fs user_id, fs)
  | Append weight waist hips chest =>
      let '(r, fs') := add_record now io user_id weight waist hips chest fs in
      (Flag <$> r, fs')
  | Latest => (Found <$> get_latest_record fs user_id, fs)
  | Previous => (Found <$> get_previous_record fs user_id, fs)
  | InWindow days => (Window <$> history_records now fs user_id days, fs)
  end.

(** ** Well-formed histories

    The documents [add_record] writes: one field ["records"], a list of
    records of one date string and four doubles. *)

Record MeasurementRecord : Type := {
  timestamp : string;
  weight : float;
  waist : float;
  hips : float;
  chest : float
}.

Definition as_json (r : MeasurementRecord) : json :=
  new_record (timestamp r) (weight r) (waist r) (hips r) (chest r).

Definition history (rs : list MeasurementRecord) : json :=
  JObj [("records", JArr (as_json <$> rs))].

(** The date of the record was written by [strftime]: [strptime] reads it. *)
Definition dated (r : MeasurementRecord) : Prop := returns (strptime_text (timestamp r)).

(** The record is stamped [start] or later. *)
Definition since (start : datetime) (r : MeasurementRecord) : bool :=
  match strptime_text (timestamp r) with
  | Ok t => start <=? t
  | Raise _ => false
  end.

(** What a line or the current values show of a record. *)
Definition shown_of (r : MeasurementRecord) : shown :=
  {| shown_date := JStr (String.substring 0 10 (timestamp r));
     shown_weight := JNum (weight r); shown_waist := JNum (waist r);
     shown_hips := JNum (hips r); shown_chest := JNum (chest r) |}.

(** [enumerate(l, i)] *)
Fixpoint numbered {A} (i : nat) (l : list A) : list (nat * A) :=
  match l with
  | [] => []
  | x :: rest => (i, x) :: numbered (S i) rest
  end.

(** Sample data. *)
Definition sample_first : MeasurementRecord :=
  {| timestamp := "2024-02-20 08:00:00"; weight := 70.5; waist := 80;
     hips := 95; chest := 90 |}.
Definition sample_second : MeasurementRecord :=
  {| timestamp := "2024-03-01 08:15:00"; weight := 69; waist := 79;
     hips := 95; chest := 89 |}.

(** ** Notions used in the statements *)

(** The documents the store copes with: no file, a file that cannot be read,
    a text the parser rejects with [json.JSONDecodeError], and the histories
    [add_record] writes. *)
Inductive sound : option document → Prop :=
| sound_absent : sound None
| sound_unreadable : sound (Some Unreadable)
| sound_malformed : sound (Some Malformed)
| sound_history rs : Forall dated rs → sound (Some (Parsed (history rs))).

(** The window start [now - days] exists; [-1] is the "all time" button. *)
Definition window_ok (now : datetime) (o : op) : Prop :=
  match o with
  | InWindow days => days = -1 ∨ returns (sub_days now days)
  | _ => True
  end.

(** The change of each field from [first] to [last]. *)
Definition totals_between (first last : MeasurementRecord) : totals :=
  {| weight_total_change := weight last - weight first;
     waist_total_change := waist last - waist first;
     hips_total_change := hips last - hips first;
     chest_total_change := chest last - chest first |}.

(** How a difference is to be reported: a positive one as an increase by
    it, a negative one as a decrease by it, zero as no change. *)
Definition signed (delta : float) (c : change) : Prop :=
  (PrimFloat.ltb 0 delta = true → c = Increase delta)
  ∧ (PrimFloat.ltb 0 delta = false → PrimFloat.ltb delta 0 = true → c = Decrease delta)
  ∧ (delta = 0%float ∨ delta = (-0)%float → c = NoChange).

(** The changes [show_progress] reports from [previous] to [latest]. *)
Definition changes_between (previous latest : MeasurementRecord) : changes :=
  {| weight_change := format_change (weight latest - weight previous);
     waist_change := format_change (waist latest - waist previous);
     hips_change := format_change (hips latest - hips previous);
     chest_change := format_change (chest latest - chest previous) |}.

(** 1000-01-01 00:00:00, from when on [strftime] writes the year with the
    four digits it has. *)
Definition year_1000 : datetime := (ymd2ord 1000 1 1 - 1) * usec_per_day.

(** The sequence under ["records"] in the user's document. *)
Definition stored_records (fs : gmap string document) (user_id : Z) : result json :=
  data ← load_user_data fs user_id;
  getitem data "records".

(** Twelve records, and two settings of the gate. *)
Definition twelve_records : list MeasurementRecord :=
  [sample_first; sample_second; sample_second; sample_second; sample_second;
   sample_second; sample_second; sample_second; sample_second; sample_second;
   sample_second;
   {| timestamp := "2024-03-12 08:00:00"; weight := 68; waist := 78.5;
      hips := 94; chest := 89 |}].

Definition admin_only_open : config :=
  {| OPEN_ACCESS := true; ALLOWED_USER_IDS := []; ALLOWED_USERNAMES := [];
     ADMIN_ONLY_MODE := true |}.

Definition admin_only_closed : config :=
  {| OPEN_ACCESS := false; ALLOWED_USER_IDS := []; ALLOWED_USERNAMES := [];
     ADMIN_ONLY_MODE := true |}.

(** ** The 400-year cycle of the calendar

    [cycle_ok n d] checks, for the [n] days from day [d] of the first 400
    years on, that [ord2ymd] gives a date of the calendar and [ymd2ord] takes
    it back; the years of the last, shorter cycle stay below 10000. *)

Definition day_ok (d : Z) : bool :=
  let '(y, m, dd) := ord2ymd (d + 1) in
  (1 <=? y) && (y <=? 400) && ((y <=? 399) || (145731 <=? d))
  && (1 <=? m) && (m <=? 12) && (1 <=? dd)
  && (dd <=? days_in_month y m) && (ymd2ord y m dd =? d + 1).

Fixpoint cycle_ok (n : nat) (d : Z) : bool :=
  match n with
  | O => true
  | S n' => day_ok d && cycle_ok n' (d + 1)
  end.

(** ** The message handlers

    One incoming text message: who sent it and what it says. The words of the
    text, read as numbers, are given by [float_words]: the list
    [text.strip().split()] with [float] applied to each word, [None] where
    [float] raises [ValueError]. *)

Record update : Type := {
  sender : Z;
  sender_name : option string;
  text : string
}.

(** The state the handlers share: the files, the dict [user_input_state] and
    the global [ADMIN_USER_ID]. *)
Record bot : Type := {
  files : gmap string document;
  user_input_state : gmap Z string;
  admin_user : option Z
}.

(** What the bot answers. [Saved] carries the new values and, when there is
    a previous record, the weight and waist differences. *)
Inductive reply : Type :=
| Denied
| Instruction
| HelpText
| HistoryMenu
| MainMenu
| UnknownCommand
| ProgressText (p : progress_reply)
| HistoryText (h : history_reply)
| Saved (weight waist hips chest : float) (diffs : option (float * float))
| SaveFailed
| InputError.

Definition WAITING : string := "waiting_for_measurements".

(** The labels of the menu buttons. *)
Definition BTN_ADD : string := "📊 Добавить измерения".
Definition BTN_PROGRESS : string := "📈 Показать прогресс".
Definition BTN_HISTORY : string := "📅 История за период".
Definition BTN_WEEK : string := "📅 За неделю".
Definition BTN_MONTH : string := "📅 За месяц".
Definition BTN_QUARTER : string := "📅 За 3 месяца".
Definition BTN_ALL : string := "📅 За всё время".
Definition BTN_HELP : string := "ℹ️ Помощь".
Definition BTN_BACK : string := "🔙 Назад".

(** [except ValueError]: [UnicodeDecodeError] is a subclass of it. *)
Definition is_ValueError (e : exn) : bool :=
  match e with
  | ValueError | UnicodeDecodeError => true
  | _ => false
  end.

(** The decorator: the gate is asked first, and the handler runs only for a
    user it lets in. *)
Definition authorization_required (cfg : config)
    (func : update → bot → result reply * bot) (u : update) (b : bot)
  : result reply * bot :=
  let '(allowed, admin) :=
    is_user_authorized cfg (sender u) (sender_name u) (admin_user b) in
  let b' := {| files := files b; user_input_state := user_input_state b;
               admin_user := admin |} in
  if allowed then func u b' else (Ok Denied, b').

Definition add_measurements (u : update) (b : bot) : result reply * bot :=
  (Ok Instruction,
   {| files := files b;
      user_input_state := <[sender u := WAITING]> (user_input_state b);
      admin_user := admin_user b |}).

(** [len(values) != 4] and [map(float, values)] *)
Definition read_values (values : list (option float))
  : result (float * float * float * float) :=
  match values with
  | [Some weight; Some waist; Some hips; Some chest] => Ok (weight, waist, hips, chest)
  | _ => Raise ValueError
  end.

(** The differences shown after a save: weight and waist only. *)
Definition saved_diffs (weight waist : float) (previous : option json)
  : result (option (float * float)) :=
  match present previous with
  | Some previous =>
      previous_weight ← getitem previous "weight";
      weight_diff ← py_sub (JNum weight) previous_weight;
      previous_waist ← getitem previous "waist";
      waist_diff ← py_sub (JNum waist) previous_waist;
      Ok (Some (weight_diff, waist_diff))
  | None => Ok None
  end.

(** The [try] block of [process_measurements_input]: what it returns or
    raises, and the files it leaves. *)
Definition try_measurements (now : datetime) (io : write_outcome) (user_id : Z)
    (values : list (option float)) (fs : gmap string document)
  : result reply * gmap string document :=
  match read_values values with
  | Raise e => (Raise e, fs)
  | Ok (weight, waist, hips, chest) =>
      match check_ranges weight waist hips chest with
      | Raise e => (Raise e, fs)
      | Ok _ =>
          match add_record now io user_id weight waist hips chest fs with
          | (Raise e, fs') => (Raise e, fs')
          | (Ok false, fs') => (Ok SaveFailed, fs')
          | (Ok true, fs') =>
              (previous ← get_previous_record fs' user_id;
               diffs ← saved_diffs weight waist previous;
               Ok (Saved weight waist hips chest diffs), fs')
          end
      end
  end.

(** A [ValueError] is answered with the input-error text; any other
    exception leaves the handler before the input state is reset. *)
Definition process_measurements_input (float_words : string → list (option float))
    (now : datetime) (io : write_outcome) (u : update) (b : bot)
  : result reply * bot :=
  let '(r, fs') :=
    try_measurements now io (sender u) (float_words (text u)) (files b) in
  let reset := {| files := fs';
                  user_input_state := delete (sender u) (user_input_state b);
                  admin_user := admin_user b |} in
  match r with
  | Ok answer => (Ok answer, reset)
  | Raise e =>
      if is_ValueError e then (Ok InputError, reset)
      else (Raise e, {| files := fs'; user_input_state := user_input_state b;
                        admin_user := admin_user b |})
  end.

Definition progress_handler (u : update) (b : bot) : result reply * bot :=
  (ProgressText <$> show_progress (files b) (sender u), b).

Definition history_handler (now : datetime) (days : Z) (u : update) (b : bot)
  : result reply * bot :=
  (HistoryText <$> show_history_period now (files b) (sender u) days, b).

(** The body of [handle_message], under its decorator in [handle_message]. *)
Definition dispatch (cfg : config) (float_words : string → list (option float))
    (now : datetime) (io : write_outcome) (u : update) (b : bot)
  : result reply * bot :=
  if bool_decide (user_input_state b !! sender u = Some WAITING)
  then process_measurements_input float_words now io u b
  else if String.eqb (text u) BTN_ADD
  then authorization_required cfg add_measurements u b
  else if String.eqb (text u) BTN_PROGRESS
  then authorization_required cfg progress_handler u b
  else if String.eqb (text u) BTN_HISTORY
  then authorization_required cfg (λ _ b, (Ok HistoryMenu, b)) u b
  else if String.eqb (text u) BTN_WEEK
  then authorization_required cfg (history_handler now 7) u b
  else if String.eqb (text u) BTN_MONTH
  then authorization_required cfg (history_handler now 30) u b
  else if String.eqb (text u) BTN_QUARTER
  then authorization_required cfg (history_handler now 90) u b
  else if String.eqb (text u) BTN_ALL
  then authorization_required cfg (history_handler now (-1)) u b
  else if String.eqb (text u) BTN_HELP
  then authorization_required cfg (λ _ b, (Ok HelpText, b)) u b
  else if String.eqb (text u) BTN_BACK
  then (Ok MainMenu, b)
  else (Ok UnknownCommand, b).

Definition handle_message (cfg : config) (float_words : string → list (option float))
    (now : datetime) (io : write_outcome) (u : update) (b : bot)
  : result reply * bot :=
  authorization_required cfg (dispatch cfg float_words now io) u b.

(** The text is ASCII, and it begins with four digits and a hyphen, as every
    text does that [strptime] reads with the format of the bot. *)
Definition ascii_text (s : string) : bool :=
  forallb (λ c, Nat.ltb (nat_of_ascii c) 128) (list_ascii_of_string s).

Definition is_digit (c : ascii) : bool :=
  match digit_val c with
  | Some _ => true
  | None => false
  end.

Definition starts_with_year (s : string) : bool :=
  match list_ascii_of_string s with
  | y1 :: y2 :: y3 :: y4 :: hyphen :: _ =>
      is_digit y1 && is_digit y2 && is_digit y3 && is_digit y4
      && Ascii.eqb hyphen "-"
  | _ => false
  end.

(** A record whose date is not in the format of [strftime]. *)
Definition undated_sample : MeasurementRecord :=
  {| timestamp := "01.03.2024"; weight := 70; waist := 80; hips := 95; chest := 90 |}.

(** Settings with an allow-list of names. *)
Definition allow_anna : config :=
  {| OPEN_ACCESS := false; ALLOWED_USER_IDS := [7]; ALLOWED_USERNAMES := ["Anna"];
     ADMIN_ONLY_MODE := false |}.

(** The answer of the gate for the sender of a message, and the state after
    the gate was asked. *)
Definition allowed (cfg : config) (u : update) (b : bot) : bool :=
  (is_user_authorized cfg (sender u) (sender_name u) (admin_user b)).1.

Definition checked (cfg : config) (u : update) (b : bot) : bot :=
  {| files := files b; user_input_state := user_input_state b;
     admin_user := (is_user_authorized cfg (sender u) (sender_name u) (admin_user b)).2 |}.

(** The bot after an input was handled: the files as given, the sender no
    longer awaited. *)
Definition after_input (cfg : config) (u : update) (b : bot)
    (fs : gmap string document) : bot :=
  {| files := fs; user_input_state := delete (sender u) (user_input_state b);
     admin_user := admin_user (checked cfg u b) |}.

(** The record [add_record] builds at [now]. *)
Definition record_at (now : datetime) (w wa h c : float) : MeasurementRecord :=
  {| timestamp := strftime now; weight := w; waist := wa; hips := h; chest := c |}.

(** The words of two sample texts, as [float] reads them. *)
Definition sample_words (s : string) : list (option float) :=
  if String.eqb s "70.5 80 95 90" then [Some 70.5; Some 80; Some 95; Some 90]%float
  else if String.eqb s "69 79 95 89" then [Some 69; Some 79; Some 95; Some 89]%float
  else if String.eqb s "500 80 95 90" then [Some 500; Some 80; Some 95; Some 90]%float
  else [None].

(** A text message of a user. *)
Definition message (user_id : Z) (name : option string) (s : string) : update :=
  {| sender := user_id; sender_name := name; text := s |}.

(** A bot that waits for the measurements of user 7, its admin. *)
Definition waiting_for_7 (fs : gmap string document) : bot :=
  {| files := fs; user_input_state := {[ 7 := WAITING ]}; admin_user := Some 7 |}.


(** * Properties *)

(** ** Dates *)

Example strftime_sample : strftime noon_2024_03_01 = "2024-03-01 12:30:45".
Proof. vm_compute. reflexivity. Qed.
Example strptime_sample :
  strptime (JStr "2024-03-01 12:30:45") = Ok (noon_2024_03_01 - 250000).
Proof. vm_compute. reflexivity. Qed.
Example strptime_leap_day : returns (strptime (JStr "2024-02-29 00:00:00")).
Proof. eexists. vm_compute. reflexivity. Qed.
Example strptime_no_leap_day : strptime (JStr "2023-02-29 00:00:00") = Raise ValueError.
Proof. vm_compute. reflexivity. Qed.
Example strftime_last : strftime (datetime_end - 1) = "9999-12-31 23:59:59".
Proof. vm_compute. reflexivity. Qed.
Example strftime_first : strftime 0 = "0001-01-01 00:00:00".
Proof. vm_compute. reflexivity. Qed.
Example ymd2ord_2024 : ymd2ord 2024 3 1 = 738946.
Proof. reflexivity. Qed.

(** ** Paths *)

Lemma chars_app (a b : string) :
  list_ascii_of_string (a +:+ b)
  = (list_ascii_of_string a ++ list_ascii_of_string b)%list.
Proof. induction a as [|c a IH]; simpl; [done | by rewrite IH]. Qed.

Lemma string_app_inv_tail (a b tail : string) : a +:+ tail = b +:+ tail → a = b.
Proof.
  intros E. apply (f_equal list_ascii_of_string) in E.
  rewrite !chars_app in E. apply app_inv_tail in E.
  rewrite <- (string_of_list_ascii_of_string a), <- (string_of_list_ascii_of_string b).
  by rewrite E.
Qed.

(** Two users never share a file. *)
Lemma get_user_file_path_inj (a b : Z) :
  get_user_file_path a = get_user_file_path b → a = b.
Proof.
  unfold get_user_file_path. intros E.
  do 3 apply String.app_inj in E.
  apply string_app_inv_tail in E.
  by apply pretty_Z_inj in E.
Qed.

Lemma path_ne (a b : Z) : a ≠ b → get_user_file_path a ≠ get_user_file_path b.
Proof. intros Hne E. by apply Hne, get_user_file_path_inj. Qed.

(** ** Dicts and sequences *)

Lemma assoc_set_eq (k : string) (v : json) (fields : list (string * json)) :
  is_Some (assoc k fields) → assoc k (assoc_set k v fields) = Some v.
Proof.
  induction fields as [|[k' v'] rest IH]; simpl.
  - by intros [? ?].
  - destruct (String.eqb k k') eqn:E; simpl; rewrite E; auto.
Qed.

Lemma from_end_last (l : list json) (x : json) : from_end (l ++ [x]) 1 = Ok x.
Proof.
  unfold from_end. rewrite length_app. simpl.
  rewrite bool_decide_eq_true_2 by lia.
  replace (length l + 1 - 1)%nat with (length l + 0)%nat by lia.
  by rewrite lookup_app_r, Nat.add_comm, Nat.add_sub by lia.
Qed.

Lemma from_end_second_last (l : list json) (x y : json) :
  from_end (l ++ [x; y]) 2 = Ok x.
Proof.
  unfold from_end. rewrite length_app. simpl.
  rewrite bool_decide_eq_true_2 by lia.
  replace (length l + 2 - 2)%nat with (length l) by lia.
  by rewrite lookup_app_r, Nat.sub_diag by lia.
Qed.

(** ** Reading and writing one user's file *)

Lemma load_written (fs : gmap string document) (user_id : Z) (data : json) :
  load_user_data (<[get_user_file_path user_id := Parsed data]> fs) user_id = Ok data.
Proof. unfold load_user_data. by rewrite lookup_insert_eq. Qed.

Lemma load_other (fs fs' : gmap string document) (user_id : Z) :
  fs' !! get_user_file_path user_id = fs !! get_user_file_path user_id →
  load_user_data fs' user_id = load_user_data fs user_id.
Proof. unfold load_user_data. by intros ->. Qed.

(** The failures [load_user_data] catches, and the missing file, read as the
    empty history. *)
Lemma load_fails_soft (fs : gmap string document) (user_id : Z) :
  fs !! get_user_file_path user_id = None
  ∨ fs !! get_user_file_path user_id = Some Unreadable
  ∨ fs !! get_user_file_path user_id = Some Malformed →
  load_user_data fs user_id = Ok (history []).
Proof. unfold load_user_data. by intros [-> | [-> | ->]]. Qed.

(** [add_record] on a well-formed history: the record is appended and the
    document handed to [save_user_data]. *)
Lemma add_record_history now io user_id w wa h c fs rs :
  load_user_data fs user_id = Ok (history rs) →
  add_record now io user_id w wa h c fs =
    let '(saved, fs') :=
      save_user_data io user_id
        (history (rs ++ [{| timestamp := strftime now; weight := w; waist := wa;
                            hips := h; chest := c |}])) fs in
    (Ok saved, fs').
Proof.
  intros Hload. unfold add_record. rewrite Hload. simpl.
  unfold history. by rewrite fmap_app.
Qed.

Lemma latest_of_history fs user_id rs r :
  load_user_data fs user_id = Ok (history (rs ++ [r])) →
  get_latest_record fs user_id = Ok (Some (as_json r)).
Proof.
  intros Hload. unfold get_latest_record. rewrite Hload. simpl.
  rewrite fmap_app. simpl. rewrite from_end_last.
  by destruct (as_json <$> rs).
Qed.

Lemma latest_of_empty fs user_id :
  load_user_data fs user_id = Ok (history []) →
  get_latest_record fs user_id = Ok None.
Proof. intros Hload. unfold get_latest_record. by rewrite Hload. Qed.

Lemma previous_of_history fs user_id rs p r :
  load_user_data fs user_id = Ok (history (rs ++ [p; r])) →
  get_previous_record fs user_id = Ok (Some (as_json p)).
Proof.
  intros Hload. unfold get_previous_record. rewrite Hload. simpl.
  rewrite fmap_app. simpl. rewrite from_end_second_last.
  rewrite bool_decide_eq_true_2; [done |].
  rewrite length_app. simpl. lia.
Qed.

Lemma previous_of_short fs user_id rs :
  (length rs < 2)%nat →
  load_user_data fs user_id = Ok (history rs) →
  get_previous_record fs user_id = Ok None.
Proof.
  intros Hlen Hload. unfold get_previous_record. rewrite Hload. simpl.
  rewrite bool_decide_eq_false_2; [done |].
  rewrite length_fmap. lia.
Qed.

Lemma bind_ok {A B} (a : A) (f : A → result B) : (Ok a ≫= f) = f a.
Proof. reflexivity. Qed.

Lemma getitem_history (rs : list MeasurementRecord) :
  getitem (history rs) "records" = Ok (JArr (as_json <$> rs)).
Proof. reflexivity. Qed.

(** The loop of [get_records_by_period] on dated records is a filter. *)
Lemma filter_since_dated (start : datetime) (rs : list MeasurementRecord) :
  Forall dated rs →
  filter_since start (as_json <$> rs) = Ok (as_json <$> List.filter (since start) rs).
Proof.
  induction 1 as [|r rs [t Ht] _ IH]; [done |].
  rewrite fmap_cons. cbn [filter_since List.filter].
  assert (Hs : since start r = (start <=? t)) by (unfold since; by rewrite Ht).
  rewrite IH, Hs. simpl. rewrite Ht. simpl.
  by destruct (start <=? t).
Qed.

Lemma get_records_by_period_history now fs user_id days start rs :
  load_user_data fs user_id = Ok (history rs) →
  Forall dated rs →
  sub_days now days = Ok start →
  get_records_by_period now fs user_id days =
    Ok (as_json <$> List.filter (since start) rs).
Proof.
  intros Hload Hdated Hstart. unfold get_records_by_period.
  rewrite Hload, bind_ok, getitem_history, bind_ok.
  destruct rs as [|r rs]; [done |].
  change (truth (JArr (as_json <$> r :: rs))) with true. cbn [negb].
  rewrite Hstart, bind_ok. cbn [py_iter]. rewrite bind_ok.
  by apply filter_since_dated.
Qed.

Lemma nonempty_truth (l : list json) (x : json) : truth (JArr (l ++ [x])) = true.
Proof. by destruct l. Qed.

(** What [data["records"].append(record)] leaves in [data], when it does not
    raise. *)
Lemma append_record_inv (data record data' : json) :
  append_record data record = Ok data' →
  ∃ items, getitem data "records" = Ok (JArr items)
           ∧ getitem data' "records" = Ok (JArr (items ++ [record])).
Proof.
  unfold append_record. intros H.
  destruct data as [| | | | |fields]; try discriminate.
  cbn [getitem] in *.
  destruct (assoc "records" fields) as [records|] eqn:E; [|discriminate].
  rewrite bind_ok in H.
  destruct records as [| | | |items|]; try discriminate.
  cbn [py_append] in H. rewrite bind_ok in H. injection H as <-.
  exists items. split; [done |].
  cbn [getitem]. by rewrite assoc_set_eq by (rewrite E; eauto).
Qed.

(** ** Saving *)

(** C1, as stated, fails: a write that breaks off after [open] has truncated
    the file reports failure, and the history stored before is gone. *)
Lemma save_torn_write_loses_history :
  let fs : gmap string document :=
    {[ get_user_file_path 1 := Parsed (history [sample_first]) ]} in
  let '(saved, fs') :=
    save_user_data (WriteFails Malformed) 1 (history [sample_first; sample_second]) fs in
  saved = false
  ∧ load_user_data fs 1 = Ok (history [sample_first])
  ∧ load_user_data fs' 1 = Ok (history []).
Proof.
  cbn [save_user_data]. split; [done |]. split.
  - unfold load_user_data. by rewrite lookup_singleton_eq.
  - unfold load_user_data. by rewrite lookup_insert_eq.
Qed.

(** C1, amended: [save_user_data] returns [True] when the whole document was
    written, and the file then reads back as exactly the saved history,
    whatever it held before; on an I/O failure it returns [False]; when the
    failure is in [open] the files are as they were, and when it comes after
    [open] the file holds what the broken write left. *)
Theorem save_user_data_outcomes (io : write_outcome) (user_id : Z) (data : json)
    (fs : gmap string document) :
  match io with
  | Written =>
      (save_user_data io user_id data fs).1 = true
      ∧ load_user_data (save_user_data io user_id data fs).2 user_id = Ok data
  | OpenFails =>
      save_user_data io user_id data fs = (false, fs)
  | WriteFails torn =>
      (save_user_data io user_id data fs).1 = false
      ∧ (save_user_data io user_id data fs).2 !! get_user_file_path user_id = Some torn
  end.
Proof.
  destruct io as [| |torn]; cbn [save_user_data fst snd].
  - split; [done | apply load_written].
  - done.
  - split; [done | apply lookup_insert_eq].
Qed.

(** ** No exception leaves the store, on sound documents *)

Lemma sound_load (fs : gmap string document) (user_id : Z) :
  sound (fs !! get_user_file_path user_id) →
  ∃ rs, load_user_data fs user_id = Ok (history rs) ∧ Forall dated rs.
Proof.
  unfold load_user_data. inversion 1 as [E | E | E | rs Hd E]; try (by exists []).
  by exists rs.
Qed.

Lemma history_records_history now fs user_id days rs :
  load_user_data fs user_id = Ok (history rs) →
  Forall dated rs →
  days = -1 ∨ returns (sub_days now days) →
  ∃ rs', history_records now fs user_id days = Ok (JArr (as_json <$> rs')).
Proof.
  intros Hload Hd Hdays. unfold history_records.
  destruct (days =? -1) eqn:E.
  - exists rs. by rewrite Hload.
  - destruct Hdays as [-> | [start Hstart]]; [done |].
    eexists. by rewrite (get_records_by_period_history _ _ _ _ start rs).
Qed.

(** C2, as stated, fails: a document that is valid JSON but has no
    ["records"] field makes [get_latest_record] raise [KeyError]. *)
Lemma latest_raises_without_records :
  (run noon_2024_03_01 Written Latest 1
     {[ get_user_file_path 1 := Parsed (JObj []) ]}).1 = Raise KeyError.
Proof.
  cbn [run fst]. unfold get_latest_record, load_user_data.
  by rewrite lookup_singleton_eq.
Qed.

(** C2, amended: when the user's document is absent, unreadable ([IOError]),
    a text the parser rejects with [json.JSONDecodeError], or a history of
    dated records, and the window start is a representable date, every store
    operation returns: [load] a history, [append] a flag, [latest] and
    [previous] a record or nothing, [inWindow] a list of records. *)
Theorem store_returns_on_sound_documents (now : datetime) (io : write_outcome)
    (o : op) (user_id : Z) (fs : gmap string document) :
  sound (fs !! get_user_file_path user_id) →
  window_ok now o →
  match o with
  | Load => ∃ rs, (run now io o user_id fs).1 = Ok (Data (history rs))
  | Append _ _ _ _ => ∃ saved, (run now io o user_id fs).1 = Ok (Flag saved)
  | Latest | Previous =>
      ∃ r, (run now io o user_id fs).1 = Ok (Found (as_json <$> r))
  | InWindow _ => ∃ rs, (run now io o user_id fs).1 = Ok (Window (JArr (as_json <$> rs)))
  end.
Proof.
  intros Hsound Hwin. destruct (sound_load _ _ Hsound) as (rs & Hload & Hd).
  destruct o as [|w wa h c| | |days]; cbn [run].
  - exists rs. by rewrite Hload.
  - rewrite (add_record_history _ _ _ _ _ _ _ _ rs Hload).
    destruct (save_user_data _ _ _ _) as [saved fs']. by exists saved.
  - destruct rs as [|r rs' _] using rev_ind.
    + exists None. by rewrite latest_of_empty.
    + exists (Some r). by rewrite (latest_of_history _ _ rs' r).
  - destruct rs as [|r rs' _] using rev_ind.
    { exists None. by rewrite (previous_of_short _ _ []) by (simpl; lia || done). }
    destruct rs' as [|p rs'' _] using rev_ind.
    { exists None. by rewrite (previous_of_short _ _ [r]) by (simpl; lia || done). }
    exists (Some p). rewrite <- app_assoc in Hload.
    by rewrite (previous_of_history _ _ rs'' p r).
  - destruct (history_records_history now fs user_id days rs Hload Hd Hwin)
      as [rs' ->].
    by exists rs'.
Qed.

Lemma sample_history_dated : Forall dated [sample_first; sample_second].
Proof. repeat constructor; eexists; vm_compute; reflexivity. Defined.

Lemma store_returns_on_sound_documents_witness :
  ∃ rs, (run noon_2024_03_01 Written (InWindow 7) 1
           {[ get_user_file_path 1 := Parsed (history [sample_first; sample_second]) ]}).1
        = Ok (Window (JArr (as_json <$> rs))).
Proof.
  apply (store_returns_on_sound_documents noon_2024_03_01 Written (InWindow 7) 1
           {[ get_user_file_path 1 := Parsed (history [sample_first; sample_second]) ]}).
  - rewrite lookup_singleton_eq. apply sound_history, sample_history_dated.
  - right. eexists. vm_compute. reflexivity.
Defined.

(** ** Appending, then reading the latest record *)

(** C3: for measurements that pass the range checks and any files, when
    [add_record] reports success, [get_latest_record] on the files it left
    returns a record whose weight, waist, hips and chest fields read back
    exactly the appended values, each under its own name. *)
Theorem append_then_latest (now : datetime) (io : write_outcome) (user_id : Z)
    (w wa h c : float) (fs fs' : gmap string document) :
  check_ranges w wa h c = Ok () →
  add_record now io user_id w wa h c fs = (Ok true, fs') →
  ∃ latest,
    get_latest_record fs' user_id = Ok (Some latest)
    ∧ getitem latest "weight" = Ok (JNum w)
    ∧ getitem latest "waist" = Ok (JNum wa)
    ∧ getitem latest "hips" = Ok (JNum h)
    ∧ getitem latest "chest" = Ok (JNum c).
Proof.
  intros _ Hadd. exists (new_record (strftime now) w wa h c).
  split; [|by repeat split].
  unfold add_record in Hadd.
  destruct (load_user_data fs user_id ≫= _) as [data'|e] eqn:Happ; [|discriminate].
  destruct (load_user_data fs user_id) as [data|e]; [|discriminate].
  rewrite bind_ok in Happ.
  destruct (append_record_inv _ _ _ Happ) as (items & _ & Hrecords).
  destruct io as [| |torn]; cbn [save_user_data] in Hadd; try discriminate.
  injection Hadd as <-.
  unfold get_latest_record. rewrite load_written, bind_ok, Hrecords, bind_ok.
  rewrite nonempty_truth. cbn [getitem_neg]. by rewrite from_end_last.
Qed.

Lemma append_then_latest_witness :
  ∃ latest,
    get_latest_record
      (add_record noon_2024_03_01 Written 1 70.5 80 95 90 ∅).2 1
    = Ok (Some latest)
    ∧ getitem latest "weight" = Ok (JNum 70.5)
    ∧ getitem latest "waist" = Ok (JNum 80)
    ∧ getitem latest "hips" = Ok (JNum 95)
    ∧ getitem latest "chest" = Ok (JNum 90).
Proof.
  apply (append_then_latest noon_2024_03_01 Written 1 70.5 80 95 90 ∅).
  - vm_compute. reflexivity.
  - reflexivity.
Defined.

(** ** The history reply *)

Lemma show_record_as_json (r : MeasurementRecord) : show_record (as_json r) = Ok (shown_of r).
Proof. reflexivity. Qed.

Lemma history_lines_records (i : nat) (rs : list MeasurementRecord) :
  history_lines i (as_json <$> rs) = Ok (numbered i (shown_of <$> rs)).
Proof.
  revert i. induction rs as [|r rs IH]; intros i; [done |].
  rewrite !fmap_cons. cbn [history_lines numbered].
  by rewrite show_record_as_json, bind_ok, IH.
Qed.

(** C4: of a window of twelve records the reply lists the last ten, in their
    order and numbered from 1, notes "the last 10 of 12" (two are left out),
    and gives the change of each field from the first of the twelve to the
    last; of no record it says that nothing was found; of one record it
    lists that record, with no totals and no note. *)
Theorem history_of_twelve (rs : list MeasurementRecord) (first last : MeasurementRecord) :
  length rs = 12%nat →
  head rs = Some first →
  list.last rs = Some last →
  (summarize_history (JArr (as_json <$> rs))
     = Ok (History (numbered 1 (shown_of <$> drop 2 rs))
                   (Some (totals_between first last)) (Some 12%nat))
   ∧ length (numbered 1 (shown_of <$> drop 2 rs)) = 10%nat
   ∧ (12 - length (numbered 1 (shown_of <$> drop 2 rs)) = 2)%nat)
  ∧ summarize_history (JArr []) = Ok NothingFound
  ∧ ∀ r, summarize_history (JArr [as_json r])
         = Ok (History [(1%nat, shown_of r)] None None).
Proof.
  intros Hlen Hfirst Hlast. split; [|by split].
  do 13 (destruct rs as [|? rs]; try discriminate Hlen).
  cbn [head] in Hfirst. injection Hfirst as <-.
  cbn [list.last] in Hlast. injection Hlast as <-.
  repeat split.
Qed.

Lemma history_of_twelve_witness :
  summarize_history (JArr (as_json <$> twelve_records))
  = Ok (History (numbered 1 (shown_of <$> drop 2 twelve_records))
          (Some {| weight_total_change := -2.5; waist_total_change := -1.5;
                   hips_total_change := -1; chest_total_change := -1 |})
          (Some 12%nat)).
Proof.
  refine (proj1 (proj1 (history_of_twelve twelve_records sample_first
                          {| timestamp := "2024-03-12 08:00:00"; weight := 68;
                             waist := 78.5; hips := 94; chest := 89 |} _ _ _)));
    reflexivity.
Defined.

(** ** Records of a period *)

(** C5, as stated, fails: a window of a million days starts before the
    first date Python represents, and [get_records_by_period] raises
    [OverflowError] instead of returning the records. *)
Lemma window_start_out_of_range :
  get_records_by_period noon_2024_03_01
    {[ get_user_file_path 1 := Parsed (history [sample_first]) ]} 1 1000000
  = Raise OverflowError.
Proof.
  unfold get_records_by_period, load_user_data.
  rewrite lookup_singleton_eq. vm_compute. reflexivity.
Qed.

(** C5, amended: for a user whose document reads as a history of dated
    records, and a number of days for which [now - days] is a representable
    date, [get_records_by_period] returns exactly the records stamped
    [now - days] or later, in their order; and with [days = -1] the history
    handler takes the whole stored sequence, unfiltered. *)
Theorem records_in_window (now : datetime) (fs : gmap string document) (user_id : Z)
    (days : Z) (rs : list MeasurementRecord) :
  load_user_data fs user_id = Ok (history rs) →
  Forall dated rs →
  Z.abs days ≤ 999999999 →
  0 ≤ now - days * usec_per_day < datetime_end →
  get_records_by_period now fs user_id days
    = Ok (as_json <$> List.filter (since (now - days * usec_per_day)) rs)
  ∧ history_records now fs user_id (-1) = Ok (JArr (as_json <$> rs)).
Proof.
  intros Hload Hd Hdays Hstart. split.
  - apply get_records_by_period_history; [done.. |].
    unfold sub_days, in_range.
    destruct (Z.ltb_spec 999999999 (Z.abs days)); [lia |].
    destruct (Z.leb_spec 0 (now - days * usec_per_day)); [|lia].
    destruct (Z.ltb_spec (now - days * usec_per_day) datetime_end); [done | lia].
  - unfold history_records. cbn [Z.eqb Pos.eqb]. by rewrite Hload.
Qed.

Lemma records_in_window_witness :
  get_records_by_period noon_2024_03_01
    {[ get_user_file_path 1 := Parsed (history [sample_first; sample_second]) ]} 1 7
  = Ok [as_json sample_second].
Proof.
  refine (proj1 (records_in_window noon_2024_03_01
                   {[ get_user_file_path 1 := Parsed (history [sample_first; sample_second]) ]}
                   1 7 [sample_first; sample_second] _ _ _ _)).
  - unfold load_user_data. by rewrite lookup_singleton_eq.
  - apply sample_history_dated.
  - vm_compute. discriminate.
  - vm_compute. split; [discriminate | reflexivity].
Defined.

(** ** The progress reply *)

Lemma compare_records_as_json (latest previous : MeasurementRecord) :
  compare_records (as_json latest) (as_json previous)
  = Ok (changes_between previous latest).
Proof. reflexivity. Qed.

Lemma format_change_value (value : float) :
  match format_change value with
  | Increase v | Decrease v => v = value
  | NoChange => True
  end.
Proof.
  unfold format_change.
  destruct (PrimFloat.ltb 0 value); [done |]. by destruct (PrimFloat.ltb value 0).
Qed.

(** The scenario of two measurements, 70.5/80/95/90 and then 69/79/95/89. *)
Example changes_of_samples :
  changes_between sample_first sample_second
  = {| weight_change := Decrease (-1.5); waist_change := Decrease (-1);
       hips_change := NoChange; chest_change := Decrease (-1) |}.
Proof. reflexivity. Qed.

Example two_appends_then_progress :
  let fs1 := (add_record noon_2024_03_01 Written 5 70.5 80 95 90 ∅).2 in
  let fs2 := (add_record (noon_2024_03_01 + usec_per_day) Written 5 69 79 95 89 fs1).2 in
  show_progress fs2 5
  = Ok (Progress
          {| shown_date := JStr "2024-03-02"; shown_weight := JNum 69;
             shown_waist := JNum 79; shown_hips := JNum 95; shown_chest := JNum 89 |}
          (Some {| weight_change := Decrease (-1.5); waist_change := Decrease (-1);
                   hips_change := NoChange; chest_change := Decrease (-1) |})).
Proof. vm_compute. reflexivity. Qed.

Example no_records_no_progress : show_progress ∅ 5 = Ok NoRecords.
Proof. reflexivity. Qed.

Lemma format_change_signed (delta : float) : signed delta (format_change delta).
Proof.
  unfold signed, format_change. split; [|split].
  - by intros ->.
  - by intros -> ->.
  - by intros [-> | ->].
Qed.

Example increase_reported : format_change 2.5 = Increase 2.5.
Proof. reflexivity. Qed.

(** C6: for any two records, the change reported for each of the four fields
    is the float difference [latest.F - previous.F] with its sign: a
    positive difference is reported as an increase by exactly that
    difference, a negative one as a decrease by exactly that difference, and
    a difference of zero (of either sign) as "no change"; with the two
    records last in the user's history this is what [show_progress] replies,
    and with a single record it replies the current values and no
    comparison. *)
Theorem progress_deltas (fs : gmap string document) (user_id : Z)
    (rs : list MeasurementRecord) (previous latest : MeasurementRecord) :
  ∃ reported,
    compare_records (as_json latest) (as_json previous) = Ok reported
    ∧ signed (weight latest - weight previous) (weight_change reported)
    ∧ signed (waist latest - waist previous) (waist_change reported)
    ∧ signed (hips latest - hips previous) (hips_change reported)
    ∧ signed (chest latest - chest previous) (chest_change reported)
    ∧ show_progress
        (<[get_user_file_path user_id := Parsed (history (rs ++ [previous; latest]))]> fs)
        user_id
      = Ok (Progress (shown_of latest) (Some reported))
    ∧ show_progress (<[get_user_file_path user_id := Parsed (history [latest])]> fs)
        user_id
      = Ok (Progress (shown_of latest) None).
Proof.
  exists (changes_between previous latest).
  split; [reflexivity |].
  do 4 (split; [apply format_change_signed |]). split.
  - unfold show_progress.
    rewrite (latest_of_history _ _ (rs ++ [previous]) latest)
      by (rewrite <- app_assoc; apply load_written).
    rewrite (previous_of_history _ _ rs previous latest) by apply load_written.
    reflexivity.
  - unfold show_progress.
    rewrite (latest_of_history _ _ [] latest) by apply load_written.
    rewrite (previous_of_short _ _ [latest]) by (simpl; lia || apply load_written).
    reflexivity.
Qed.

(** ** Documents that are not UTF-8 *)

(** A text nested deeper than the parser follows is not caught either. *)
Example load_raises_on_too_deep :
  load_user_data {[ get_user_file_path 1 := TooDeep ]} 1 = Raise RecursionError.
Proof. unfold load_user_data. by rewrite lookup_singleton_eq. Qed.

(** C7: the claim is right and [load_user_data] misses a case. It catches
    [json.JSONDecodeError] and [IOError], but the [UnicodeDecodeError] of a
    file whose bytes are not UTF-8 is neither, and leaves the function. *)
Theorem load_raises_on_undecodable :
  load_user_data {[ get_user_file_path 1 := Undecodable ]} 1 = Raise UnicodeDecodeError.
Proof. unfold load_user_data. by rewrite lookup_singleton_eq. Qed.

(** ** The stored sequence only grows *)

(** C8, as stated, fails: an append whose write breaks off after [open] has
    truncated the file reports failure, and the records stored before are
    gone. *)
Lemma append_torn_write_loses_records :
  let fs : gmap string document :=
    {[ get_user_file_path 1 := Parsed (history [sample_first]) ]} in
  let '(res, fs') :=
    run noon_2024_03_01 (WriteFails Malformed) (Append 69 79 95 89) 1 fs in
  res = Ok (Flag false)
  ∧ stored_records fs 1 = Ok (JArr [as_json sample_first])
  ∧ stored_records fs' 1 = Ok (JArr []).
Proof.
  vm_compute. repeat split.
Qed.

(** C8, amended: for a user whose document reads as a history, an operation
    that reads ([load], [latest], [previous], [inWindow]) leaves the files
    as they were; an [append] of measurements within the ranges whose save
    succeeds leaves the records stored before, in the same order, followed
    by the one new record; an [append] whose save fails in [open] leaves the
    files as they were; and an [append] whose write fails after [open]
    reports failure and leaves the file as the broken write left it,
    whatever was stored before. *)
Theorem history_only_appended (now : datetime) (io : write_outcome)
    (user_id : Z) (w wa h c : float) (days : Z) (fs : gmap string document)
    (rs : list MeasurementRecord) :
  load_user_data fs user_id = Ok (history rs) →
  year_1000 ≤ now < datetime_end →
  check_ranges w wa h c = Ok () →
  (run now io Load user_id fs).2 = fs
  ∧ (run now io Latest user_id fs).2 = fs
  ∧ (run now io Previous user_id fs).2 = fs
  ∧ (run now io (InWindow days) user_id fs).2 = fs
  ∧ match io with
    | Written =>
        (run now io (Append w wa h c) user_id fs).1 = Ok (Flag true)
        ∧ load_user_data (run now io (Append w wa h c) user_id fs).2 user_id
          = Ok (history (rs ++ [record_at now w wa h c]))
    | OpenFails => run now io (Append w wa h c) user_id fs = (Ok (Flag false), fs)
    | WriteFails torn =>
        (run now io (Append w wa h c) user_id fs).1 = Ok (Flag false)
        ∧ (run now io (Append w wa h c) user_id fs).2 !! get_user_file_path user_id
          = Some torn
    end.
Proof.
  intros Hload _ _. do 4 (split; [reflexivity |]).
  cbn [run]. rewrite (add_record_history _ _ _ _ _ _ _ _ rs Hload).
  destruct io as [| |torn]; cbn [save_user_data fst snd].
  - split; [done | apply load_written].
  - done.
  - split; [done | apply lookup_insert_eq].
Qed.

Lemma history_only_appended_witness :
  (run noon_2024_03_01 Written (Append 69 79 95 89) 1
     {[ get_user_file_path 1 := Parsed (history [sample_first]) ]}).1 = Ok (Flag true)
  ∧ load_user_data
      (run noon_2024_03_01 Written (Append 69 79 95 89) 1
         {[ get_user_file_path 1 := Parsed (history [sample_first]) ]}).2 1
    = Ok (history [sample_first; record_at noon_2024_03_01 69 79 95 89]).
Proof.
  refine (proj2 (proj2 (proj2 (proj2
            (history_only_appended noon_2024_03_01 Written 1 69 79 95 89 7
               {[ get_user_file_path 1 := Parsed (history [sample_first]) ]}
               [sample_first] _ _ _))))).
  - unfold load_user_data. by rewrite lookup_singleton_eq.
  - vm_compute. split; [discriminate | reflexivity].
  - vm_compute. reflexivity.
Defined.

(** ** One user's operations and another user's file *)

Lemma save_other (io : write_outcome) (a b : Z) (data : json)
    (fs : gmap string document) :
  a ≠ b →
  (save_user_data io a data fs).2 !! get_user_file_path b = fs !! get_user_file_path b.
Proof.
  intros Hne. apply path_ne in Hne.
  destruct io; cbn [save_user_data snd]; by rewrite ?lookup_insert_ne.
Qed.

Lemma add_record_other now io (a b : Z) w wa h c (fs : gmap string document) :
  a ≠ b →
  (add_record now io a w wa h c fs).2 !! get_user_file_path b
  = fs !! get_user_file_path b.
Proof.
  intros Hne. unfold add_record.
  destruct (load_user_data fs a ≫= _) as [data'|e]; [|done].
  pose proof (save_other io a b data' fs Hne) as Hsave.
  by destruct (save_user_data io a data' fs).
Qed.

(** C9: for two different user ids, no operation done for the first ([load],
    [append], [save], [latest], [previous], [inWindow]) changes the file of
    the second, which reads back as before; the file is found by the user id
    alone. *)
Theorem other_users_untouched (now : datetime) (io : write_outcome) (o : op)
    (a b : Z) (data : json) (fs : gmap string document) :
  a ≠ b →
  get_user_file_path a ≠ get_user_file_path b
  ∧ (run now io o a fs).2 !! get_user_file_path b = fs !! get_user_file_path b
  ∧ load_user_data (run now io o a fs).2 b = load_user_data fs b
  ∧ (save_user_data io a data fs).2 !! get_user_file_path b = fs !! get_user_file_path b
  ∧ load_user_data (save_user_data io a data fs).2 b = load_user_data fs b.
Proof.
  intros Hne.
  assert (Hrun : (run now io o a fs).2 !! get_user_file_path b
                 = fs !! get_user_file_path b).
  { destruct o as [|w wa h c| | |days]; cbn [run snd]; try done.
    pose proof (add_record_other now io a b w wa h c fs Hne) as Hadd.
    by destruct (add_record now io a w wa h c fs). }
  split; [by apply path_ne |]. split; [done |].
  split; [by apply load_other |].
  split; [by apply save_other |].
  by apply load_other, save_other.
Qed.

Lemma other_users_untouched_witness :
  load_user_data
    (run noon_2024_03_01 Written (Append 69 79 95 89) 1
       {[ get_user_file_path 2 := Parsed (history [sample_first]) ]}).2 2
  = load_user_data {[ get_user_file_path 2 := Parsed (history [sample_first]) ]} 2.
Proof.
  refine (proj1 (proj2 (proj2 (other_users_untouched noon_2024_03_01 Written
            (Append 69 79 95 89) 1 2 JNull
            {[ get_user_file_path 2 := Parsed (history [sample_first]) ]} _)))).
  discriminate.
Defined.

(** ** The first caller in admin-only mode *)

(** C10, as stated, fails: with admin-only mode on, no admin set and open
    access on as well, the first caller is let in without being recorded, and
    a second, different user is let in too. *)
Lemma open_access_overrides_admin_only :
  authorize_all admin_only_open [(1, None); (2, None)] None = ([true; true], None).
Proof. reflexivity. Qed.

(** C10, amended: with open access off, admin-only mode on and no admin set,
    the first user checked is let in and recorded as the admin; every later
    check answers whether the checked id is that first id, and the admin
    stays the same. *)
Theorem first_caller_becomes_admin (cfg : config) (first : Z)
    (username : option string) (callers : list (Z * option string)) :
  OPEN_ACCESS cfg = false →
  ADMIN_ONLY_MODE cfg = true →
  is_user_authorized cfg first username None = (true, Some first)
  ∧ authorize_all cfg callers (Some first)
    = (map (λ caller, caller.1 =? first) callers, Some first).
Proof.
  intros Hopen Hadmin. split.
  - unfold is_user_authorized. by rewrite Hopen, Hadmin.
  - induction callers as [|[user_id name] rest IH]; [done |].
    cbn [authorize_all map fst]. unfold is_user_authorized at 1.
    by rewrite Hopen, Hadmin, IH.
Qed.

Lemma first_caller_becomes_admin_witness :
  is_user_authorized admin_only_closed 7 (Some "anna") None = (true, Some 7)
  ∧ authorize_all admin_only_closed [(8, Some "boris"); (7, None); (9, None)] (Some 7)
    = ([false; true; false], Some 7).
Proof.
  apply (first_caller_becomes_admin admin_only_closed 7 (Some "anna")
           [(8, Some "boris"); (7, None); (9, None)]); reflexivity.
Defined.

(** ** Dates written by [strftime] are read back by [strptime] *)

Lemma cycle_ok_spec (n : nat) (d k : Z) :
  cycle_ok n d = true → 0 ≤ k < Z.of_nat n → day_ok (d + k) = true.
Proof.
  revert d k. induction n as [|n IH]; intros d k Hok Hk; [lia |].
  cbn [cycle_ok] in Hok. apply andb_true_iff in Hok as [Hd Hrest].
  destruct (decide (k = 0)) as [-> | Hne].
  - by rewrite Z.add_0_r.
  - replace (d + k) with (d + 1 + (k - 1)) by lia. apply IH; [done | lia].
Qed.

Lemma first_cycle_ok : cycle_ok (Z.to_nat 146097) 0 = true.
Proof. vm_compute. reflexivity. Qed.

Lemma day_ok_in_cycle (r : Z) : 0 ≤ r < 146097 → day_ok r = true.
Proof.
  intros Hr. apply (cycle_ok_spec _ 0 r first_cycle_ok). lia.
Qed.

Lemma DI400Y_eq : DI400Y = 146097.
Proof. reflexivity. Qed.

Lemma is_leap_shift (y q : Z) : is_leap (y + 400 * q) = is_leap y.
Proof.
  unfold is_leap.
  replace ((y + 400 * q) mod 4) with (y mod 4)
    by (replace (400 * q) with (100 * q * 4) by lia; by rewrite Z_mod_plus_full).
  replace ((y + 400 * q) mod 100) with (y mod 100)
    by (replace (400 * q) with (4 * q * 100) by lia; by rewrite Z_mod_plus_full).
  replace ((y + 400 * q) mod 400) with (y mod 400)
    by (replace (400 * q) with (q * 400) by lia; by rewrite Z_mod_plus_full).
  done.
Qed.

Lemma days_before_year_shift (y q : Z) :
  days_before_year (y + 400 * q) = days_before_year y + q * 146097.
Proof.
  unfold days_before_year. cbv zeta.
  replace (y + 400 * q - 1) with (y - 1 + 400 * q) by lia.
  replace ((y - 1 + 400 * q) / 4) with ((y - 1) / 4 + 100 * q)
    by (replace (400 * q) with (100 * q * 4) by lia; by rewrite Z.div_add).
  replace ((y - 1 + 400 * q) / 100) with ((y - 1) / 100 + 4 * q)
    by (replace (400 * q) with (4 * q * 100) by lia; by rewrite Z.div_add).
  replace ((y - 1 + 400 * q) / 400) with ((y - 1) / 400 + q)
    by (replace (400 * q) with (q * 400) by lia; by rewrite Z.div_add).
  lia.
Qed.

Lemma ymd2ord_shift (y m d q : Z) :
  ymd2ord (y + 400 * q) m d = ymd2ord y m d + q * 146097.
Proof.
  unfold ymd2ord, days_before_month.
  rewrite days_before_year_shift, is_leap_shift. lia.
Qed.

Lemma days_in_month_shift (y m q : Z) :
  days_in_month (y + 400 * q) m = days_in_month y m.
Proof. unfold days_in_month. by rewrite is_leap_shift. Qed.

Lemma ord2ymd_shift (q r : Z) :
  0 ≤ r < 146097 →
  ord2ymd (q * 146097 + r + 1)
  = let '(y, m, d) := ord2ymd (r + 1) in (y + 400 * q, m, d).
Proof.
  intros Hr. unfold ord2ymd. rewrite DI400Y_eq. cbv zeta.
  replace (q * 146097 + r + 1 - 1) with (r + q * 146097) by lia.
  replace (r + 1 - 1) with r by lia.
  rewrite Z.div_add, Z_mod_plus_full by lia.
  rewrite (Z.div_small r 146097), (Z.mod_small r 146097) by lia.
  set (n100 := r / DI100Y). set (n1 := r mod DI100Y).
  set (n4 := n1 / DI4Y). set (n2 := n1 mod DI4Y).
  set (k1 := n2 / 365). set (n3 := n2 mod 365).
  destruct ((k1 =? 4) || (n100 =? 4)); [f_equal; f_equal; lia |].
  match goal with |- context [if ?c then _ else _] => destruct c end;
    f_equal; f_equal; lia.
Qed.


Lemma digit_val_char (n : Z) : digit_val (digit_char n) = Some (n mod 10).
Proof.
  unfold digit_val, digit_char.
  pose proof (Z.mod_pos_bound n 10 ltac:(lia)) as Hn.
  rewrite nat_ascii_embedding by lia.
  rewrite Nat2Z.inj_add, Z2Nat.id by lia.
  change (Z.of_nat 48) with 48.
  destruct (Z.leb_spec 48 (48 + n mod 10)); [|lia].
  destruct (Z.leb_spec (48 + n mod 10) 57); [|lia].
  cbn [andb]. f_equal. lia.
Qed.

Lemma number_pad2 (n : Z) : 0 ≤ n < 100 → number 0 (pad2 n) = Some n.
Proof.
  intros Hn. unfold pad2. cbn [number]. rewrite !digit_val_char. cbn.
  f_equal. Z.div_mod_to_equations. lia.
Qed.

Lemma number_pad4 (n : Z) : 0 ≤ n < 10000 → number 0 (pad4 n) = Some n.
Proof.
  intros Hn. unfold pad4. cbn [number]. rewrite !digit_val_char. cbn.
  f_equal. Z.div_mod_to_equations. lia.
Qed.

(** The date [ord2ymd] gives for a day of the range, and its ordinal. *)
Lemma ord2ymd_valid (day : Z) :
  0 ≤ day < MAXORDINAL →
  ∃ y m d, ord2ymd (day + 1) = (y, m, d)
           ∧ 1 ≤ y ≤ 9999 ∧ 1 ≤ m ≤ 12 ∧ 1 ≤ d ≤ days_in_month y m ∧ d ≤ 31
           ∧ ymd2ord y m d = day + 1.
Proof.
  unfold MAXORDINAL. intros Hday.
  pose proof (Z.div_mod day 146097 ltac:(lia)) as Hdm.
  pose proof (Z.mod_pos_bound day 146097 ltac:(lia)) as Hr.
  set (q := day / 146097) in *. set (r := day mod 146097) in *.
  clearbody q r. assert (0 ≤ q ≤ 24) as Hq by lia.
  pose proof (day_ok_in_cycle r Hr) as Hok.
  pose proof (ord2ymd_shift q r Hr) as Hshift.
  unfold day_ok in Hok.
  destruct (ord2ymd (r + 1)) as [[y0 m] d].
  rewrite !andb_true_iff, orb_true_iff, !Z.leb_le, Z.eqb_eq in Hok.
  destruct Hok as (((((((Hy1 & Hy2) & Hy3) & Hm1) & Hm2) & Hd1) & Hd2) & Hord).
  exists (y0 + 400 * q), m, d.
  replace (day + 1) with (q * 146097 + r + 1) by lia.
  rewrite days_in_month_shift, ymd2ord_shift.
  assert (days_in_month y0 m ≤ 31) as Hdim.
  { unfold days_in_month. destruct ((m =? 2) && is_leap y0); [lia |].
    assert (m = 1 ∨ m = 2 ∨ m = 3 ∨ m = 4 ∨ m = 5 ∨ m = 6 ∨ m = 7 ∨ m = 8
            ∨ m = 9 ∨ m = 10 ∨ m = 11 ∨ m = 12) as Hm by lia.
    destruct_or!; subst m; vm_compute; congruence. }
  split; [done |]. lia.
Qed.

Lemma strptime_strftime (t : datetime) :
  0 ≤ t < datetime_end →
  strptime_text (strftime t) = Ok (t - t mod usec_per_sec).
Proof.
  unfold datetime_end, usec_per_day, usec_per_sec, MAXORDINAL. intros Ht.
  unfold strftime, usec_per_sec.
  set (secs := t / 1000000).
  assert (0 ≤ secs < 3652059 * 86400) as Hsecs
    by (unfold secs; Z.div_mod_to_equations; lia).
  assert (t - t mod 1000000 = secs * 1000000) as ->
    by (unfold secs; Z.div_mod_to_equations; lia).
  clearbody secs.
  set (day := secs / 86400). set (s := secs mod 86400).
  assert (0 ≤ day < MAXORDINAL) as Hday
    by (unfold MAXORDINAL, day; Z.div_mod_to_equations; lia).
  assert (0 ≤ s < 86400) as Hs by (unfold s; Z.div_mod_to_equations; lia).
  assert (secs = day * 86400 + s) as Hsplit
    by (unfold day, s; Z.div_mod_to_equations; lia).
  clearbody day s.
  destruct (ord2ymd_valid day Hday) as (y & m & d & -> & Hy & Hm & Hd & Hd31 & Hord).
  unfold strptime_text. rewrite list_ascii_of_string_of_list_ascii.
  cbn [pad4 pad2 app].
  fold (pad4 y) (pad2 m) (pad2 d) (pad2 (s / 3600)) (pad2 (s mod 3600 / 60))
    (pad2 (s mod 60)).
  rewrite (number_pad4 y), (number_pad2 m), (number_pad2 d) by lia.
  assert (0 ≤ s / 3600 < 24 ∧ 0 ≤ s mod 3600 / 60 < 60 ∧ 0 ≤ s mod 60 < 60
          ∧ s / 3600 * 3600 + s mod 3600 / 60 * 60 + s mod 60 = s)
    as (Hhh & Hmm & Hss & Hsum) by (Z.div_mod_to_equations; lia).
  rewrite (number_pad2 (s / 3600)), (number_pad2 (s mod 3600 / 60)),
    (number_pad2 (s mod 60)) by lia.
  cbn [Ascii.eqb Bool.eqb andb].
  rewrite !(proj2 (Z.leb_le _ _)), !(proj2 (Z.ltb_lt _ _)) by lia.
  cbn [andb]. rewrite Hord. unfold usec_per_sec. f_equal. lia.
Qed.

Lemma strftime_dated (weight waist hips chest : float) (t : datetime) :
  0 ≤ t < datetime_end →
  dated {| timestamp := strftime t; weight := weight; waist := waist;
           hips := hips; chest := chest |}.
Proof. intros Ht. eexists. by apply strptime_strftime. Qed.

(** ** Latest and previous record *)

(** X1: on a stored history [get_latest_record] returns its last record, and
    nothing when the history is empty. *)
Theorem latest_is_last (fs : gmap string document) (user_id : Z)
    (rs : list MeasurementRecord) :
  load_user_data fs user_id = Ok (history rs) →
  get_latest_record fs user_id = Ok (as_json <$> last rs).
Proof.
  intros Hload. destruct rs as [|r rs' _] using rev_ind.
  - by apply latest_of_empty.
  - rewrite last_snoc. by apply (latest_of_history _ _ rs').
Qed.

Lemma latest_is_last_witness :
  get_latest_record
    {[ get_user_file_path 1 := Parsed (history [sample_first; sample_second]) ]} 1
  = Ok (Some (as_json sample_second)).
Proof.
  apply (latest_is_last _ 1 [sample_first; sample_second]).
  unfold load_user_data. by rewrite lookup_singleton_eq.
Defined.

(** X2: on a stored history [get_previous_record] returns the record before
    the last one, and nothing when there are fewer than two records. *)
Theorem previous_is_second_last (fs : gmap string document) (user_id : Z)
    (rs : list MeasurementRecord) :
  load_user_data fs user_id = Ok (history rs) →
  get_previous_record fs user_id = Ok (as_json <$> rev rs !! 1%nat).
Proof.
  intros Hload. destruct rs as [|r rs' _] using rev_ind.
  { by apply (previous_of_short _ _ []); [simpl; lia |]. }
  destruct rs' as [|p rs'' _] using rev_ind.
  { by apply (previous_of_short _ _ [r]); [simpl; lia |]. }
  rewrite <- app_assoc in *. cbn [app] in *.
  rewrite rev_app_distr. cbn.
  by apply (previous_of_history _ _ rs'' p r).
Qed.

Lemma previous_is_second_last_witness :
  get_previous_record
    {[ get_user_file_path 1 := Parsed (history [sample_first; sample_second]) ]} 1
  = Ok (Some (as_json sample_first)).
Proof.
  apply (previous_is_second_last _ 1 [sample_first; sample_second]).
  unfold load_user_data. by rewrite lookup_singleton_eq.
Defined.

(** ** Windows *)

(** X3: for a user with no stored record (no file, an unreadable or broken
    file, or an empty history) [get_records_by_period] returns the empty list
    for every number of days, also one whose window start no date can
    represent. *)
Theorem empty_history_any_window (now : datetime) (fs : gmap string document)
    (user_id : Z) (days : Z) :
  load_user_data fs user_id = Ok (history []) →
  get_records_by_period now fs user_id days = Ok [].
Proof. intros Hload. unfold get_records_by_period. by rewrite Hload. Qed.

Lemma empty_history_any_window_witness :
  get_records_by_period noon_2024_03_01 ∅ 1 1000000000000 = Ok [].
Proof.
  apply (empty_history_any_window noon_2024_03_01 ∅ 1 1000000000000).
  reflexivity.
Defined.

Lemma filter_sublist_impl {A} (p q : A → bool) (l : list A) :
  (∀ x, p x = true → q x = true) →
  List.filter p l `sublist_of` List.filter q l.
Proof.
  intros Hpq. induction l as [|x l IH]; [done |]. cbn [List.filter].
  destruct (p x) eqn:Hp.
  - rewrite (Hpq x Hp). by apply sublist_skip.
  - destruct (q x); [by apply sublist_cons | done].
Qed.

(** X4: a longer window holds the records of a shorter one, in the same
    order: for [days1 <= days2], what [get_records_by_period] returns for
    [days1] is a subsequence of what it returns for [days2]. *)
Theorem longer_window_has_more (now : datetime) (fs : gmap string document)
    (user_id : Z) (days1 days2 : Z) (rs : list MeasurementRecord) :
  load_user_data fs user_id = Ok (history rs) →
  Forall dated rs →
  returns (sub_days now days1) →
  returns (sub_days now days2) →
  days1 ≤ days2 →
  ∃ short long,
    get_records_by_period now fs user_id days1 = Ok short
    ∧ get_records_by_period now fs user_id days2 = Ok long
    ∧ short `sublist_of` long.
Proof.
  intros Hload Hd [start1 H1] [start2 H2] Hle.
  do 2 eexists. split; [|split].
  - by apply (get_records_by_period_history _ _ _ _ start1 rs).
  - by apply (get_records_by_period_history _ _ _ _ start2 rs).
  - apply fmap_sublist, filter_sublist_impl. intros r.
    assert (start2 ≤ start1).
    { unfold sub_days in H1, H2.
      destruct (999999999 <? Z.abs days1); [done |].
      destruct (999999999 <? Z.abs days2); [done |].
      destruct (in_range _); [|done]. destruct (in_range _); [|done].
      injection H1 as <-. injection H2 as <-. unfold usec_per_day, usec_per_sec. lia. }
    unfold since. destruct (strptime_text (timestamp r)); [|done].
    rewrite !Z.leb_le. lia.
Qed.

Lemma longer_window_has_more_witness :
  ∃ short long,
    get_records_by_period noon_2024_03_01
      {[ get_user_file_path 1 := Parsed (history [sample_first; sample_second]) ]} 1 7
    = Ok short
    ∧ get_records_by_period noon_2024_03_01
        {[ get_user_file_path 1 := Parsed (history [sample_first; sample_second]) ]} 1 30
      = Ok long
    ∧ short `sublist_of` long.
Proof.
  apply (longer_window_has_more noon_2024_03_01 _ 1 7 30 [sample_first; sample_second]).
  - unfold load_user_data. by rewrite lookup_singleton_eq.
  - apply sample_history_dated.
  - eexists. vm_compute. reflexivity.
  - eexists. vm_compute. reflexivity.
  - lia.
Defined.

Lemma strptime_text_raises (s : string) (e : exn) :
  strptime_text s = Raise e → e = ValueError.
Proof. unfold strptime_text. intros H. repeat case_match; congruence. Qed.

Lemma filter_since_undated (start : datetime) (rs : list MeasurementRecord) :
  ¬ Forall dated rs → filter_since start (as_json <$> rs) = Raise ValueError.
Proof.
  induction rs as [|r rs IH]; intros Hnot.
  - exfalso. apply Hnot. constructor.
  - rewrite fmap_cons. cbn [filter_since].
    change (getitem (as_json r) "date") with (Ok (JStr (timestamp r))).
    rewrite bind_ok. cbn [strptime].
    destruct (strptime_text (timestamp r)) as [t|e] eqn:E.
    + rewrite bind_ok, IH; [done |].
      intros Hrs. apply Hnot. constructor; [by exists t | done].
    + by rewrite (strptime_text_raises _ _ E).
Qed.

Lemma strptime_text_year (s : string) (t : datetime) :
  strptime_text s = Ok t → starts_with_year s = true.
Proof.
  unfold strptime_text, starts_with_year. intros H.
  destruct (list_ascii_of_string s) as [|y1 [|y2 [|y3 [|y4 [|hyphen rest]]]]];
    try discriminate.
  repeat case_match; try discriminate.
  match goal with
  | Hseps : _ && _ && _ && _ && _ = true |- _ =>
      rewrite !andb_true_iff in Hseps; destruct Hseps as ((((-> & _) & _) & _) & _)
  end.
  match goal with
  | Hyear : number 0 [y1; y2; y3; y4] = Some _ |- _ =>
      cbn [number] in Hyear; unfold is_digit;
      destruct (digit_val y1); [|discriminate]; cbn in Hyear;
      destruct (digit_val y2); [|discriminate]; cbn in Hyear;
      destruct (digit_val y3); [|discriminate]; cbn in Hyear;
      destruct (digit_val y4); [|discriminate]
  end.
  reflexivity.
Qed.

(** X5: when the date of some stored record is ASCII text that does not begin
    with four digits and a hyphen (so [strptime] cannot read it with the
    format of the bot), [get_records_by_period] raises [ValueError] for
    every window, whatever the other records are: the record is not
    skipped. *)
Theorem undated_record_raises (now : datetime) (fs : gmap string document)
    (user_id : Z) (days : Z) (rs : list MeasurementRecord) :
  load_user_data fs user_id = Ok (history rs) →
  Exists (λ r, ascii_text (timestamp r) = true
               ∧ starts_with_year (timestamp r) = false) rs →
  returns (sub_days now days) →
  get_records_by_period now fs user_id days = Raise ValueError.
Proof.
  intros Hload Hbad [start Hstart].
  assert (¬ Forall dated rs) as Hnot.
  { intros Hd. apply Exists_exists in Hbad as (r & Hin & _ & Hyear).
    rewrite Forall_forall in Hd. destruct (Hd r Hin) as [t Ht].
    apply strptime_text_year in Ht. congruence. }
  unfold get_records_by_period.
  rewrite Hload, bind_ok, getitem_history, bind_ok.
  destruct rs as [|r rs]; [exfalso; apply Hnot; constructor |].
  change (truth (JArr (as_json <$> r :: rs))) with true. cbn [negb].
  rewrite Hstart, bind_ok. cbn [py_iter]. rewrite bind_ok.
  by apply filter_since_undated.
Qed.

Lemma undated_record_raises_witness :
  get_records_by_period noon_2024_03_01
    {[ get_user_file_path 1 :=
         Parsed (history [sample_first; undated_sample; sample_second]) ]} 1 7
  = Raise ValueError.
Proof.
  apply (undated_record_raises noon_2024_03_01 _ 1 7
           [sample_first; undated_sample; sample_second]).
  - unfold load_user_data. by rewrite lookup_singleton_eq.
  - apply Exists_cons_tl, Exists_cons_hd. split; reflexivity.
  - eexists. vm_compute. reflexivity.
Defined.

(** ** Appending and the windows *)

(** X6: a record appended at [now] carries a date the bot reads back: after
    a successful [add_record] on a history of dated records, every window
    that starts at or before the second of [now] returns the earlier records
    of the window followed by the new record. *)
Theorem appended_record_in_window (now later : datetime) (io : write_outcome)
    (user_id : Z) (w wa h c : float) (fs fs' : gmap string document) (days : Z)
    (start : datetime) (rs : list MeasurementRecord) :
  load_user_data fs user_id = Ok (history rs) →
  Forall dated rs →
  0 ≤ now < datetime_end →
  add_record now io user_id w wa h c fs = (Ok true, fs') →
  sub_days later days = Ok start →
  start ≤ now - now mod usec_per_sec →
  get_records_by_period later fs' user_id days
  = Ok ((as_json <$> List.filter (since start) rs)
        ++ [new_record (strftime now) w wa h c])%list.
Proof.
  intros Hload Hd Hnow Hadd Hstart Hle.
  rewrite (add_record_history _ _ _ _ _ _ _ _ rs Hload) in Hadd.
  destruct io as [| |torn]; cbn [save_user_data] in Hadd; try discriminate.
  injection Hadd as <-.
  set (r := {| timestamp := strftime now; weight := w; waist := wa;
               hips := h; chest := c |}).
  rewrite (get_records_by_period_history later _ user_id days start (rs ++ [r])).
  - rewrite List.filter_app, fmap_app. cbn [List.filter].
    unfold since at 2. cbn [timestamp r]. rewrite strptime_strftime by done.
    by rewrite (proj2 (Z.leb_le _ _) Hle).
  - apply load_written.
  - apply Forall_app. split; [done |]. constructor; [|done].
    by apply strftime_dated.
  - done.
Qed.

Lemma appended_record_in_window_witness :
  get_records_by_period noon_2024_03_01
    (add_record noon_2024_03_01 Written 1 69 79 95 89
       {[ get_user_file_path 1 := Parsed (history [sample_first]) ]}).2 1 7
  = Ok [new_record (strftime noon_2024_03_01) 69 79 95 89].
Proof.
  refine (appended_record_in_window noon_2024_03_01 noon_2024_03_01 Written 1
            69 79 95 89 {[ get_user_file_path 1 := Parsed (history [sample_first]) ]}
            _ 7 (noon_2024_03_01 - 7 * usec_per_day) [sample_first] _ _ _ _ _ _).
  - unfold load_user_data. by rewrite lookup_singleton_eq.
  - repeat constructor. eexists. vm_compute. reflexivity.
  - vm_compute. split; [discriminate | reflexivity].
  - unfold add_record, load_user_data. by rewrite lookup_singleton_eq.
  - vm_compute. reflexivity.
  - vm_compute. discriminate.
Defined.

(** X7: appending for a user whose file is missing, cannot be read
    ([IOError]) or holds a text the parser rejects with
    [json.JSONDecodeError] starts a new history: for measurements within the
    ranges, after a successful save the file holds exactly the one new
    record, and what the file held before is gone. *)
Theorem append_starts_new_history (now : datetime) (user_id : Z)
    (w wa h c : float) (fs : gmap string document) :
  fs !! get_user_file_path user_id = None
  ∨ fs !! get_user_file_path user_id = Some Unreadable
  ∨ fs !! get_user_file_path user_id = Some Malformed →
  year_1000 ≤ now < datetime_end →
  check_ranges w wa h c = Ok () →
  add_record now Written user_id w wa h c fs
  = (Ok true,
     <[get_user_file_path user_id :=
         Parsed (history [record_at now w wa h c])]> fs)
  ∧ load_user_data (add_record now Written user_id w wa h c fs).2 user_id
    = Ok (history [record_at now w wa h c]).
Proof.
  intros Hdoc _ _.
  rewrite (add_record_history _ _ _ _ _ _ _ _ [] (load_fails_soft _ _ Hdoc)).
  cbn [save_user_data app snd]. split; [done | apply load_written].
Qed.

Lemma append_starts_new_history_witness :
  add_record noon_2024_03_01 Written 1 69 79 95 89
    {[ get_user_file_path 1 := Malformed ]}
  = (Ok true,
     <[get_user_file_path 1 :=
         Parsed (history [record_at noon_2024_03_01 69 79 95 89])]>
       {[ get_user_file_path 1 := Malformed ]})
  ∧ load_user_data
      (add_record noon_2024_03_01 Written 1 69 79 95 89
         {[ get_user_file_path 1 := Malformed ]}).2 1
    = Ok (history [record_at noon_2024_03_01 69 79 95 89]).
Proof.
  apply (append_starts_new_history noon_2024_03_01 1 69 79 95 89).
  - right. right. by rewrite lookup_singleton_eq.
  - vm_compute. split; [discriminate | reflexivity].
  - vm_compute. reflexivity.
Defined.

(** ** The gate *)

Lemma gate_keeps_admin (cfg : config) (user_id : Z) (name : option string) (admin : Z) :
  (is_user_authorized cfg user_id name (Some admin)).2 = Some admin.
Proof. unfold is_user_authorized. by repeat case_match. Qed.

Lemma denied_keeps_state (cfg : config) (user_id : Z) (name : option string)
    (admin : option Z) :
  (is_user_authorized cfg user_id name admin).1 = false →
  (is_user_authorized cfg user_id name admin).2 = admin.
Proof. unfold is_user_authorized. by repeat case_match. Qed.

(** X8: once an admin is recorded, no sequence of checks, under any
    settings, records another one. *)
Theorem admin_never_replaced (cfg : config) (callers : list (Z * option string))
    (admin : Z) :
  (authorize_all cfg callers (Some admin)).2 = Some admin.
Proof.
  induction callers as [|[user_id name] rest IH]; [done |].
  cbn [authorize_all].
  pose proof (gate_keeps_admin cfg user_id name admin) as Hkeep.
  destruct (is_user_authorized cfg user_id name (Some admin)) as [allowed admin'].
  cbn [snd] in Hkeep. subst admin'.
  by destruct (authorize_all cfg rest (Some admin)).
Qed.

(** X9: the gate gives the same answer when it is asked again about the
    same user, and the second check changes nothing; so a handler reached
    through two decorators is not refused by the second. *)
Theorem gate_is_stable (cfg : config) (user_id : Z) (name : option string)
    (admin : option Z) :
  is_user_authorized cfg user_id name (is_user_authorized cfg user_id name admin).2
  = is_user_authorized cfg user_id name admin.
Proof.
  unfold is_user_authorized.
  destruct (OPEN_ACCESS cfg); [done |].
  destruct (ADMIN_ONLY_MODE cfg).
  - destruct admin as [a|]; cbn [snd]; [done |]. by rewrite Z.eqb_refl.
  - by repeat case_match.
Qed.

Lemma lower_empty (s : string) : String.eqb (lower s) "" = String.eqb s "".
Proof. by destruct s. Qed.

(** X10: with the allow-lists, the user name is compared without regard to
    case: two names that differ only in the case of their letters get the
    same answer. *)
Theorem username_case_ignored (cfg : config) (user_id : Z) (name1 name2 : string)
    (admin : option Z) :
  lower name1 = lower name2 →
  is_user_authorized cfg user_id (Some name1) admin
  = is_user_authorized cfg user_id (Some name2) admin.
Proof.
  intros Hlower. unfold is_user_authorized.
  by rewrite <- (lower_empty name1), <- (lower_empty name2), Hlower.
Qed.

Lemma username_case_ignored_witness :
  is_user_authorized allow_anna 5 (Some "ANNA") None
  = is_user_authorized allow_anna 5 (Some "anna") None.
Proof. apply (username_case_ignored allow_anna 5 "ANNA" "anna" None). reflexivity. Defined.

Example anna_allowed : is_user_authorized allow_anna 5 (Some "ANNA") None = (true, None).
Proof. reflexivity. Qed.
Example nameless_refused : is_user_authorized allow_anna 5 None None = (false, None).
Proof. reflexivity. Qed.

(** ** The history reply, for any number of records *)

Lemma total_changes_records (rs : list MeasurementRecord) (first last : MeasurementRecord) :
  head rs = Some first →
  list.last rs = Some last →
  total_changes (JArr (as_json <$> rs)) = Ok (totals_between first last).
Proof.
  intros Hfirst Hlast. unfold total_changes.
  apply last_Some in Hlast as [rs' ->].
  assert (getitem_first (JArr (as_json <$> (rs' ++ [last])%list)) = Ok (as_json first))
    as ->.
  { destruct rs' as [|r rs'']; cbn in Hfirst |- *; congruence. }
  rewrite bind_ok. cbn [getitem_neg]. rewrite fmap_app. cbn [fmap list_fmap].
  by rewrite from_end_last.
Qed.

(** X11: of a window of [n >= 1] records the reply lists the last
    [min 10 n], numbered from 1 in their order; it gives the changes from
    the first to the last record of the whole window exactly when [n >= 2],
    and the note "the last 10 of [n]" exactly when [n > 10]. *)
Theorem summarize_history_records (rs : list MeasurementRecord)
    (first last : MeasurementRecord) :
  head rs = Some first →
  list.last rs = Some last →
  summarize_history (JArr (as_json <$> rs))
  = Ok (History
          (numbered 1 (shown_of <$> drop (length rs - 10) rs))
          (if bool_decide (2 ≤ length rs)%nat
           then Some (totals_between first last) else None)
          (if bool_decide (10 < length rs)%nat then Some (length rs) else None))
  ∧ length (numbered 1 (shown_of <$> drop (length rs - 10) rs))
    = Nat.min 10 (length rs).
Proof.
  intros Hfirst Hlast. split.
  - unfold summarize_history.
    assert (truth (JArr (as_json <$> rs)) = true) as ->
      by (destruct rs; [discriminate | done]).
    cbn [negb py_len]. rewrite bind_ok, length_fmap.
    assert ((if bool_decide (10 < length rs)%nat
             then slice_last 10 (JArr (as_json <$> rs))
             else Ok (JArr (as_json <$> rs)))
            = Ok (JArr (as_json <$> drop (length rs - 10) rs))) as ->.
    { case_bool_decide.
      - cbn [slice_last]. by rewrite length_fmap, fmap_drop.
      - by replace (length rs - 10)%nat with 0%nat by lia. }
    rewrite bind_ok. cbn [py_iter]. rewrite bind_ok, history_lines_records, bind_ok.
    destruct (bool_decide (2 ≤ length rs)%nat); [|done].
    by rewrite (total_changes_records rs first last).
  - assert (∀ {A} (l : list A) i, length (numbered i l) = length l) as Hnum.
    { intros A l. induction l as [|x l IH]; intros i; [done |].
      cbn. by rewrite IH. }
    rewrite Hnum, length_fmap, length_drop. lia.
Qed.

Lemma summarize_history_records_witness :
  summarize_history (JArr (as_json <$> [sample_first; sample_second]))
  = Ok (History [(1%nat, shown_of sample_first); (2%nat, shown_of sample_second)]
          (Some (totals_between sample_first sample_second)) None).
Proof.
  refine (proj1 (summarize_history_records [sample_first; sample_second]
                   sample_first sample_second _ _)); reflexivity.
Defined.

Lemma summarize_not_nothing (r : MeasurementRecord) (rs : list MeasurementRecord) :
  summarize_history (JArr (as_json <$> r :: rs)) ≠ Ok NothingFound.
Proof.
  unfold summarize_history.
  change (truth (JArr (as_json <$> r :: rs))) with true. cbn [negb].
  destruct (py_len _) as [n|]; [rewrite bind_ok | discriminate].
  destruct (if bool_decide (10 < n)%nat then slice_last _ _ else _) as [d|];
    [rewrite bind_ok | discriminate].
  destruct (py_iter d) as [items|]; [rewrite bind_ok | discriminate].
  destruct (history_lines 1 items) as [lines|]; [rewrite bind_ok | discriminate].
  destruct (if bool_decide (2 ≤ n)%nat then Some <$> _ else _); discriminate.
Qed.

(** X12: on a history of dated records [show_history_period] summarizes
    exactly the records of the window, all of them for the "all time"
    button, and answers "nothing found" exactly when the window holds no
    record. *)
Theorem history_reply_of_window (now : datetime) (fs : gmap string document)
    (user_id : Z) (days : Z) (start : datetime) (rs : list MeasurementRecord) :
  load_user_data fs user_id = Ok (history rs) →
  Forall dated rs →
  days = -1 ∨ sub_days now days = Ok start →
  show_history_period now fs user_id days
  = summarize_history
      (JArr (as_json <$> (if days =? -1 then rs else List.filter (since start) rs)))
  ∧ (show_history_period now fs user_id days = Ok NothingFound
     ↔ (if days =? -1 then rs else List.filter (since start) rs) = []).
Proof.
  intros Hload Hd Hdays.
  assert (show_history_period now fs user_id days
          = summarize_history
              (JArr (as_json <$> (if days =? -1 then rs
                                  else List.filter (since start) rs)))) as Hshow.
  { unfold show_history_period, history_records.
    destruct (days =? -1) eqn:E.
    - by rewrite Hload.
    - destruct Hdays as [-> | Hstart]; [done |].
      by rewrite (get_records_by_period_history _ _ _ _ start rs). }
  split; [done |]. rewrite Hshow.
  destruct (if days =? -1 then rs else List.filter (since start) rs)
    as [|r window] eqn:Hw; [done |].
  split; [|done].
  intros Hnothing. by apply summarize_not_nothing in Hnothing.
Qed.

Lemma history_reply_of_window_witness :
  show_history_period noon_2024_03_01
    {[ get_user_file_path 1 := Parsed (history [sample_first; sample_second]) ]} 1 7
  = Ok (History [(1%nat, shown_of sample_second)] None None).
Proof.
  refine (proj1 (history_reply_of_window noon_2024_03_01 _ 1 7
                   (noon_2024_03_01 - 7 * usec_per_day)
                   [sample_first; sample_second] _ _ _)).
  - unfold load_user_data. by rewrite lookup_singleton_eq.
  - apply sample_history_dated.
  - right. vm_compute. reflexivity.
Defined.

(** ** The message handlers *)

Lemma read_values_raises (values : list (option float)) (e : exn) :
  read_values values = Raise e → e = ValueError.
Proof. unfold read_values. intros H. repeat case_match; congruence. Qed.

Lemma check_ranges_raises (w wa h c : float) (e : exn) :
  check_ranges w wa h c = Raise e → e = ValueError.
Proof. unfold check_ranges. intros H. repeat case_match; congruence. Qed.

Lemma add_record_raises now io user_id w wa h c fs e :
  (add_record now io user_id w wa h c fs).1 = Raise e →
  add_record now io user_id w wa h c fs = (Raise e, fs).
Proof.
  unfold add_record. destruct (load_user_data fs user_id ≫= _) as [data'|e'].
  - by destruct (save_user_data io user_id data' fs).
  - cbn [fst]. by intros [= ->].
Qed.

Lemma previous_after_append fs user_id rs r :
  load_user_data fs user_id = Ok (history (rs ++ [r])) →
  get_previous_record fs user_id = Ok (as_json <$> last rs).
Proof.
  intros Hload. destruct rs as [|p rs' _] using rev_ind.
  - by apply (previous_of_short _ _ [r]); [simpl; lia |].
  - rewrite last_snoc. rewrite <- app_assoc in Hload.
    by apply (previous_of_history _ _ rs' p r).
Qed.

Lemma saved_diffs_record (w wa : float) (p : option MeasurementRecord) :
  saved_diffs w wa (as_json <$> p)
  = Ok ((λ p, (w - weight p, wa - waist p)%float) <$> p).
Proof. by destruct p. Qed.

Lemma try_measurements_invalid now io user_id values fs :
  (∀ w wa h c, read_values values = Ok (w, wa, h, c) → check_ranges w wa h c ≠ Ok ()) →
  try_measurements now io user_id values fs = (Raise ValueError, fs).
Proof.
  intros Hinvalid. unfold try_measurements.
  destruct (read_values values) as [[[[w wa] h] c]|e] eqn:Hread.
  - specialize (Hinvalid w wa h c eq_refl).
    destruct (check_ranges w wa h c) as [[]|e] eqn:Hcheck; [done |].
    by rewrite (check_ranges_raises _ _ _ _ _ Hcheck).
  - by rewrite (read_values_raises _ _ Hread).
Qed.

Lemma try_measurements_valid now io user_id values fs w wa h c :
  read_values values = Ok (w, wa, h, c) →
  check_ranges w wa h c = Ok () →
  try_measurements now io user_id values fs =
    match add_record now io user_id w wa h c fs with
    | (Raise e, fs') => (Raise e, fs')
    | (Ok false, fs') => (Ok SaveFailed, fs')
    | (Ok true, fs') =>
        (previous ← get_previous_record fs' user_id;
         diffs ← saved_diffs w wa previous;
         Ok (Saved w wa h c diffs), fs')
    end.
Proof. intros Hread Hcheck. unfold try_measurements. by rewrite Hread, Hcheck. Qed.

Lemma try_measurements_not_denied now io user_id values fs :
  (try_measurements now io user_id values fs).1 ≠ Ok Denied.
Proof.
  unfold try_measurements.
  destruct (read_values values) as [[[[w wa] h] c]|e]; [|discriminate].
  destruct (check_ranges w wa h c); [|discriminate].
  destruct (add_record now io user_id w wa h c fs) as [[[|]|e] fs'];
    cbn [fst]; try discriminate.
  destruct (get_previous_record fs' user_id) as [previous|]; [|discriminate].
  rewrite bind_ok. by destruct (saved_diffs w wa previous).
Qed.

Lemma try_measurements_other now io (a b : Z) values fs :
  a ≠ b →
  (try_measurements now io a values fs).2 !! get_user_file_path b
  = fs !! get_user_file_path b.
Proof.
  intros Hne. unfold try_measurements.
  destruct (read_values values) as [[[[w wa] h] c]|e]; [|done].
  destruct (check_ranges w wa h c); [|done].
  pose proof (add_record_other now io a b w wa h c fs Hne) as Hadd.
  by destruct (add_record now io a w wa h c fs) as [[[|]|e] fs'].
Qed.

Section Handlers.

Variable cfg : config.
Variable float_words : string → list (option float).

Lemma checked_denied (u : update) (b : bot) :
  allowed cfg u b = false → checked cfg u b = b.
Proof.
  unfold allowed, checked. intros Hdenied.
  rewrite denied_keeps_state by done. by destruct b.
Qed.

Lemma authorization_required_denied func (u : update) (b : bot) :
  allowed cfg u b = false → authorization_required cfg func u b = (Ok Denied, b).
Proof.
  intros Hdenied. pose proof (checked_denied u b Hdenied) as Hsame.
  unfold authorization_required, allowed, checked in *.
  destruct (is_user_authorized _ _ _ _) as [ok admin]. cbn [fst snd] in *.
  subst ok. by rewrite Hsame.
Qed.

Lemma authorization_required_allowed func (u : update) (b : bot) :
  allowed cfg u b = true →
  authorization_required cfg func u b = func u (checked cfg u b).
Proof.
  unfold authorization_required, allowed, checked.
  destruct (is_user_authorized _ _ _ _) as [ok admin]. cbn [fst snd].
  by intros ->.
Qed.

(** Behind the outer decorator, the decorator of the inner handler lets the
    same sender through and changes nothing. *)
Lemma inner_gate func (u : update) (b : bot) :
  allowed cfg u b = true →
  authorization_required cfg func u (checked cfg u b) = func u (checked cfg u b).
Proof.
  intros Hallowed.
  assert (allowed cfg u (checked cfg u b) = true) as Hagain
    by (unfold allowed, checked in *; cbn [admin_user]; by rewrite gate_is_stable).
  rewrite authorization_required_allowed by done. f_equal.
  unfold checked. cbn [files user_input_state admin_user].
  by rewrite gate_is_stable.
Qed.

Lemma process_measurements_input_checked now io (u : update) (b : bot) :
  process_measurements_input float_words now io u (checked cfg u b) =
    let '(r, fs') :=
      try_measurements now io (sender u) (float_words (text u)) (files b) in
    match r with
    | Ok answer => (Ok answer, after_input cfg u b fs')
    | Raise e =>
        if is_ValueError e then (Ok InputError, after_input cfg u b fs')
        else (Raise e, {| files := fs'; user_input_state := user_input_state b;
                          admin_user := admin_user (checked cfg u b) |})
    end.
Proof. reflexivity. Qed.

Lemma handle_message_waiting now io (u : update) (b : bot) :
  allowed cfg u b = true →
  user_input_state b !! sender u = Some WAITING →
  handle_message cfg float_words now io u b
  = process_measurements_input float_words now io u (checked cfg u b).
Proof.
  intros Hallowed Hwaiting. unfold handle_message.
  rewrite authorization_required_allowed by done. unfold dispatch.
  cbn [checked user_input_state]. by rewrite bool_decide_eq_true_2.
Qed.

End Handlers.

(** X13: a message from a user the gate refuses is answered with the
    access-denied text and changes nothing: not the files, not the input
    state, not the recorded admin. *)
Theorem refused_message_changes_nothing (cfg : config)
    (float_words : string → list (option float)) (now : datetime)
    (io : write_outcome) (u : update) (b : bot) :
  allowed cfg u b = false →
  handle_message cfg float_words now io u b = (Ok Denied, b).
Proof. intros Hdenied. unfold handle_message. by apply authorization_required_denied. Qed.

Lemma refused_message_changes_nothing_witness :
  handle_message allow_anna sample_words noon_2024_03_01 Written
    {| sender := 9; sender_name := Some "boris"; text := "70.5 80 95 90" |}
    {| files := ∅; user_input_state := {[ 9 := WAITING ]}; admin_user := None |}
  = (Ok Denied,
     {| files := ∅; user_input_state := {[ 9 := WAITING ]}; admin_user := None |}).
Proof.
  apply (refused_message_changes_nothing allow_anna sample_words noon_2024_03_01 Written).
  reflexivity.
Defined.

(** X14: a sender the gate lets in is never answered with the access-denied
    text, although the handlers behind [handle_message] ask the gate a
    second time. *)
Theorem admitted_sender_not_denied (cfg : config)
    (float_words : string → list (option float)) (now : datetime)
    (io : write_outcome) (u : update) (b : bot) :
  allowed cfg u b = true →
  (handle_message cfg float_words now io u b).1 ≠ Ok Denied.
Proof.
  intros Hallowed. unfold handle_message.
  rewrite authorization_required_allowed by done. unfold dispatch.
  case_bool_decide.
  - rewrite process_measurements_input_checked.
    pose proof (try_measurements_not_denied now io (sender u)
                  (float_words (text u)) (files b)) as Htry.
    destruct (try_measurements _ _ _ _ _) as [[answer|e] fs']; cbn [fst] in *;
      [done |]. by destruct (is_ValueError e).
  - repeat case_match; rewrite ?inner_gate by done; try discriminate.
    + unfold progress_handler. cbn [fst]. by destruct (show_progress _ _).
    + unfold history_handler. cbn [fst]. by destruct (show_history_period _ _ _ _).
    + unfold history_handler. cbn [fst]. by destruct (show_history_period _ _ _ _).
    + unfold history_handler. cbn [fst]. by destruct (show_history_period _ _ _ _).
    + unfold history_handler. cbn [fst]. by destruct (show_history_period _ _ _ _).
Qed.

Lemma admitted_sender_not_denied_witness :
  (handle_message admin_only_closed sample_words noon_2024_03_01 Written
     {| sender := 7; sender_name := None; text := BTN_PROGRESS |}
     {| files := ∅; user_input_state := ∅; admin_user := None |}).1 ≠ Ok Denied.
Proof.
  apply (admitted_sender_not_denied admin_only_closed sample_words noon_2024_03_01 Written).
  reflexivity.
Defined.

(** X15: while the bot waits for the measurements of a user, a text that is
    not four numbers within the ranges is answered with the input-error
    text; the files stay as they were and the bot no longer waits for that
    user. *)
Theorem invalid_input_rejected (cfg : config)
    (float_words : string → list (option float)) (now : datetime)
    (io : write_outcome) (u : update) (b : bot) :
  allowed cfg u b = true →
  user_input_state b !! sender u = Some WAITING →
  (∀ w wa h c, read_values (float_words (text u)) = Ok (w, wa, h, c) →
               check_ranges w wa h c ≠ Ok ()) →
  handle_message cfg float_words now io u b
  = (Ok InputError, after_input cfg u b (files b)).
Proof.
  intros Hallowed Hwaiting Hinvalid.
  rewrite handle_message_waiting, process_measurements_input_checked by done.
  by rewrite try_measurements_invalid.
Qed.

(** X16: while the bot waits for the measurements of a user whose document
    is a stored history, four numbers within the ranges are appended as a
    new record when the save goes through; the answer shows them with the
    weight and waist differences to the record that was last before, and
    the bot no longer waits for that user. *)
Theorem valid_input_saved (cfg : config)
    (float_words : string → list (option float)) (now : datetime)
    (u : update) (b : bot) (w wa h c : float) (rs : list MeasurementRecord) :
  allowed cfg u b = true →
  user_input_state b !! sender u = Some WAITING →
  read_values (float_words (text u)) = Ok (w, wa, h, c) →
  check_ranges w wa h c = Ok () →
  load_user_data (files b) (sender u) = Ok (history rs) →
  handle_message cfg float_words now Written u b
  = (Ok (Saved w wa h c ((λ p, (w - weight p, wa - waist p)%float) <$> last rs)),
     after_input cfg u b
       (<[get_user_file_path (sender u) :=
            Parsed (history (rs ++ [record_at now w wa h c]))]> (files b))).
Proof.
  intros Hallowed Hwaiting Hread Hcheck Hload.
  rewrite handle_message_waiting, process_measurements_input_checked by done.
  rewrite (try_measurements_valid _ _ _ _ _ w wa h c) by done.
  rewrite (add_record_history _ _ _ _ _ _ _ _ rs Hload). cbn [save_user_data].
  rewrite (previous_after_append _ _ rs (record_at now w wa h c))
    by apply load_written.
  by rewrite bind_ok, saved_diffs_record, bind_ok.
Qed.

(** X17: when the save fails, the answer is the save-failed text, the files
    are as the failed save left them, and the bot no longer waits for that
    user. *)
Theorem failed_save_reported (cfg : config)
    (float_words : string → list (option float)) (now : datetime)
    (io : write_outcome) (u : update) (b : bot) (w wa h c : float)
    (rs : list MeasurementRecord) :
  allowed cfg u b = true →
  user_input_state b !! sender u = Some WAITING →
  read_values (float_words (text u)) = Ok (w, wa, h, c) →
  check_ranges w wa h c = Ok () →
  load_user_data (files b) (sender u) = Ok (history rs) →
  io ≠ Written →
  handle_message cfg float_words now io u b
  = (Ok SaveFailed,
     after_input cfg u b
       (save_user_data io (sender u)
          (history (rs ++ [record_at now w wa h c])) (files b)).2).
Proof.
  intros Hallowed Hwaiting Hread Hcheck Hload Hio.
  rewrite handle_message_waiting, process_measurements_input_checked by done.
  rewrite (try_measurements_valid _ _ _ _ _ w wa h c) by done.
  rewrite (add_record_history _ _ _ _ _ _ _ _ rs Hload).
  by destruct io.
Qed.

(** X18: when the store raises an exception that is not a [ValueError]
    while the measurements are appended (a document of another shape, for
    one), the exception leaves [handle_message], and the bot still waits
    for the measurements of that user; the files are as they were. *)
Theorem store_exception_keeps_waiting (cfg : config)
    (float_words : string → list (option float)) (now : datetime)
    (io : write_outcome) (u : update) (b : bot) (w wa h c : float) (e : exn) :
  allowed cfg u b = true →
  user_input_state b !! sender u = Some WAITING →
  read_values (float_words (text u)) = Ok (w, wa, h, c) →
  check_ranges w wa h c = Ok () →
  (add_record now io (sender u) w wa h c (files b)).1 = Raise e →
  is_ValueError e = false →
  handle_message cfg float_words now io u b = (Raise e, checked cfg u b).
Proof.
  intros Hallowed Hwaiting Hread Hcheck Hadd He.
  rewrite handle_message_waiting, process_measurements_input_checked by done.
  rewrite (try_measurements_valid _ _ _ _ _ w wa h c) by done.
  rewrite (add_record_raises _ _ _ _ _ _ _ _ _ Hadd). by rewrite He.
Qed.

(** X19: a file that is not UTF-8 makes the append raise
    [UnicodeDecodeError], which the handler catches as a [ValueError]: valid
    measurements are answered with the input-error text, nothing is stored,
    and the bot no longer waits for that user. *)
Theorem undecodable_file_reported_as_input_error (cfg : config)
    (float_words : string → list (option float)) (now : datetime)
    (io : write_outcome) (u : update) (b : bot) (w wa h c : float) :
  allowed cfg u b = true →
  user_input_state b !! sender u = Some WAITING →
  read_values (float_words (text u)) = Ok (w, wa, h, c) →
  check_ranges w wa h c = Ok () →
  files b !! get_user_file_path (sender u) = Some Undecodable →
  handle_message cfg float_words now io u b
  = (Ok InputError, after_input cfg u b (files b)).
Proof.
  intros Hallowed Hwaiting Hread Hcheck Hdoc.
  rewrite handle_message_waiting, process_measurements_input_checked by done.
  rewrite (try_measurements_valid _ _ _ _ _ w wa h c) by done.
  unfold add_record, load_user_data. by rewrite Hdoc.
Qed.

(** X20: only the input of measurements writes: a message handled while the
    bot is not waiting for its sender's measurements leaves every file as it
    was, whoever sent it and whatever it says. *)
Theorem commands_do_not_write (cfg : config)
    (float_words : string → list (option float)) (now : datetime)
    (io : write_outcome) (u : update) (b : bot) :
  user_input_state b !! sender u ≠ Some WAITING →
  files (handle_message cfg float_words now io u b).2 = files b.
Proof.
  intros Hidle. unfold handle_message.
  destruct (allowed cfg u b) eqn:Hallowed.
  - rewrite authorization_required_allowed by done. unfold dispatch.
    cbn [checked user_input_state]. rewrite bool_decide_eq_false_2 by done.
    fold (checked cfg u b).
    repeat case_match; by rewrite ?inner_gate by done.
  - by rewrite authorization_required_denied.
Qed.

(** X21: handling a message of one user changes neither the input state
    nor the file of any other user. *)
Theorem other_senders_untouched (cfg : config)
    (float_words : string → list (option float)) (now : datetime)
    (io : write_outcome) (u : update) (b : bot) (other : Z) :
  other ≠ sender u →
  user_input_state (handle_message cfg float_words now io u b).2 !! other
  = user_input_state b !! other
  ∧ files (handle_message cfg float_words now io u b).2 !! get_user_file_path other
    = files b !! get_user_file_path other.
Proof.
  intros Hother. unfold handle_message.
  destruct (allowed cfg u b) eqn:Hallowed;
    [|by rewrite authorization_required_denied].
  rewrite authorization_required_allowed by done. unfold dispatch.
  case_bool_decide.
  - rewrite process_measurements_input_checked.
    pose proof (try_measurements_other now io (sender u) other
                  (float_words (text u)) (files b) (not_eq_sym Hother)) as Hfiles.
    destruct (try_measurements _ _ _ _ _) as [[answer|e] fs']; cbn [snd] in Hfiles.
    + cbn [snd after_input files user_input_state].
      by rewrite lookup_delete_ne.
    + destruct (is_ValueError e); cbn [snd after_input files user_input_state];
        by rewrite ?lookup_delete_ne.
  - repeat case_match; rewrite ?inner_gate by done; try done.
    cbn [snd add_measurements checked files user_input_state].
    by rewrite lookup_insert_ne.
Qed.

(** X22: the two steps of entering measurements. For a user the gate lets
    in, whom the bot is not waiting for and whose document is a stored
    history: the "add measurements" button is answered with the
    instructions; the next text of that user, four numbers within the
    ranges, is then stored as the new last record, and the bot stops
    waiting. *)
Theorem add_button_then_values (cfg : config)
    (float_words : string → list (option float)) (now1 now2 : datetime)
    (io1 : write_outcome) (user_id : Z) (name : option string) (values : string)
    (b : bot) (w wa h c : float) (rs : list MeasurementRecord) :
  allowed cfg (message user_id name BTN_ADD) b = true →
  user_input_state b !! user_id ≠ Some WAITING →
  read_values (float_words values) = Ok (w, wa, h, c) →
  check_ranges w wa h c = Ok () →
  load_user_data (files b) user_id = Ok (history rs) →
  (handle_message cfg float_words now1 io1 (message user_id name BTN_ADD) b).1
  = Ok Instruction
  ∧ (handle_message cfg float_words now2 Written (message user_id name values)
       (handle_message cfg float_words now1 io1 (message user_id name BTN_ADD) b).2).1
    = Ok (Saved w wa h c ((λ p, (w - weight p, wa - waist p)%float) <$> last rs))
  ∧ load_user_data
      (files (handle_message cfg float_words now2 Written (message user_id name values)
                (handle_message cfg float_words now1 io1
                   (message user_id name BTN_ADD) b).2).2) user_id
    = Ok (history (rs ++ [record_at now2 w wa h c]))
  ∧ user_input_state
      (handle_message cfg float_words now2 Written (message user_id name values)
         (handle_message cfg float_words now1 io1
            (message user_id name BTN_ADD) b).2).2 !! user_id
    = None.
Proof.
  intros Hallowed Hidle Hread Hcheck Hload.
  set (press := message user_id name BTN_ADD) in *.
  set (input := message user_id name values).
  assert (handle_message cfg float_words now1 io1 press b
          = add_measurements press (checked cfg press b)) as Hfirst.
  { unfold handle_message. rewrite authorization_required_allowed by done.
    unfold dispatch. cbn [checked user_input_state press message sender text].
    rewrite bool_decide_eq_false_2 by done.
    change (String.eqb BTN_ADD BTN_ADD) with true. cbn match.
    by apply inner_gate. }
  rewrite Hfirst. unfold add_measurements at 1. cbn [fst snd].
  split; [done |].
  set (b1 := (add_measurements press (checked cfg press b)).2).
  assert (allowed cfg input b1 = true) as Hallowed1
    by (unfold allowed, checked in *; cbn; by rewrite gate_is_stable).
  assert (user_input_state b1 !! sender input = Some WAITING) as Hwaiting
    by (cbn; by rewrite lookup_insert_eq).
  rewrite handle_message_waiting, process_measurements_input_checked by done.
  rewrite (try_measurements_valid _ _ _ _ _ w wa h c) by done.
  change (files b1) with (files b). change (sender input) with user_id.
  rewrite (add_record_history _ _ _ _ _ _ _ _ rs Hload). cbn [save_user_data].
  rewrite (previous_after_append _ _ rs (record_at now2 w wa h c))
    by apply load_written.
  rewrite bind_ok, saved_diffs_record, bind_ok. cbn [fst snd after_input files].
  split; [done |]. split; [apply load_written |].
  cbn. apply lookup_delete_eq.
Qed.

Lemma invalid_input_rejected_witness :
  handle_message admin_only_closed sample_words noon_2024_03_01 Written
    (message 7 None "500 80 95 90") (waiting_for_7 ∅)
  = (Ok InputError,
     after_input admin_only_closed (message 7 None "500 80 95 90") (waiting_for_7 ∅) ∅).
Proof.
  refine (invalid_input_rejected admin_only_closed sample_words noon_2024_03_01 Written
           (message 7 None "500 80 95 90") (waiting_for_7 ∅) _ _ _).
  - reflexivity.
  - vm_compute. reflexivity.
  - intros w wa h c H. vm_compute in H. injection H as <- <- <- <-.
    vm_compute. discriminate.
Defined.

Lemma valid_input_saved_witness :
  handle_message admin_only_closed sample_words noon_2024_03_01 Written
    (message 7 None "69 79 95 89")
    (waiting_for_7 {[ get_user_file_path 7 := Parsed (history [sample_first]) ]})
  = (Ok (Saved 69 79 95 89 (Some (-1.5, -1)%float)),
     after_input admin_only_closed (message 7 None "69 79 95 89")
       (waiting_for_7 {[ get_user_file_path 7 := Parsed (history [sample_first]) ]})
       (<[get_user_file_path 7 :=
            Parsed (history [sample_first; record_at noon_2024_03_01 69 79 95 89])]>
          {[ get_user_file_path 7 := Parsed (history [sample_first]) ]})).
Proof.
  refine (valid_input_saved admin_only_closed sample_words noon_2024_03_01
            (message 7 None "69 79 95 89")
            (waiting_for_7 {[ get_user_file_path 7 := Parsed (history [sample_first]) ]})
            69 79 95 89 [sample_first] _ _ _ _ _).
  - reflexivity.
  - vm_compute. reflexivity.
  - vm_compute. reflexivity.
  - vm_compute. reflexivity.
  - unfold load_user_data. cbn [waiting_for_7 files message sender].
    by rewrite lookup_singleton_eq.
Defined.

Lemma failed_save_reported_witness :
  handle_message admin_only_closed sample_words noon_2024_03_01 OpenFails
    (message 7 None "69 79 95 89")
    (waiting_for_7 {[ get_user_file_path 7 := Parsed (history [sample_first]) ]})
  = (Ok SaveFailed,
     after_input admin_only_closed (message 7 None "69 79 95 89")
       (waiting_for_7 {[ get_user_file_path 7 := Parsed (history [sample_first]) ]})
       {[ get_user_file_path 7 := Parsed (history [sample_first]) ]}).
Proof.
  refine (failed_save_reported admin_only_closed sample_words noon_2024_03_01 OpenFails
           (message 7 None "69 79 95 89")
           (waiting_for_7 {[ get_user_file_path 7 := Parsed (history [sample_first]) ]})
           69 79 95 89 [sample_first] _ _ _ _ _ _).
  - reflexivity.
  - vm_compute. reflexivity.
  - vm_compute. reflexivity.
  - vm_compute. reflexivity.
  - unfold load_user_data. cbn [waiting_for_7 files message sender].
    by rewrite lookup_singleton_eq.
  - discriminate.
Defined.

Lemma store_exception_keeps_waiting_witness :
  handle_message admin_only_closed sample_words noon_2024_03_01 Written
    (message 7 None "69 79 95 89")
    (waiting_for_7 {[ get_user_file_path 7 := Parsed (JObj []) ]})
  = (Raise KeyError,
     checked admin_only_closed (message 7 None "69 79 95 89")
       (waiting_for_7 {[ get_user_file_path 7 := Parsed (JObj []) ]})).
Proof.
  refine (store_exception_keeps_waiting admin_only_closed sample_words noon_2024_03_01
           Written (message 7 None "69 79 95 89")
           (waiting_for_7 {[ get_user_file_path 7 := Parsed (JObj []) ]})
           69 79 95 89 KeyError _ _ _ _ _ _).
  - reflexivity.
  - vm_compute. reflexivity.
  - vm_compute. reflexivity.
  - vm_compute. reflexivity.
  - unfold add_record, load_user_data. cbn [waiting_for_7 files message sender].
    by rewrite lookup_singleton_eq.
  - reflexivity.
Defined.

Lemma undecodable_file_reported_as_input_error_witness :
  handle_message admin_only_closed sample_words noon_2024_03_01 Written
    (message 7 None "69 79 95 89")
    (waiting_for_7 {[ get_user_file_path 7 := Undecodable ]})
  = (Ok InputError,
     after_input admin_only_closed (message 7 None "69 79 95 89")
       (waiting_for_7 {[ get_user_file_path 7 := Undecodable ]})
       {[ get_user_file_path 7 := Undecodable ]}).
Proof.
  refine (undecodable_file_reported_as_input_error admin_only_closed sample_words
           noon_2024_03_01 Written (message 7 None "69 79 95 89")
           (waiting_for_7 {[ get_user_file_path 7 := Undecodable ]}) 69 79 95 89 _ _ _ _ _).
  - reflexivity.
  - vm_compute. reflexivity.
  - vm_compute. reflexivity.
  - vm_compute. reflexivity.
  - cbn [waiting_for_7 files message sender]. by rewrite lookup_singleton_eq.
Defined.

Lemma commands_do_not_write_witness :
  files (handle_message admin_only_closed sample_words noon_2024_03_01 Written
           (message 7 None BTN_ADD)
           {| files := {[ get_user_file_path 7 := Parsed (history [sample_first]) ]};
              user_input_state := ∅; admin_user := None |}).2
  = {[ get_user_file_path 7 := Parsed (history [sample_first]) ]}.
Proof.
  refine (commands_do_not_write admin_only_closed sample_words noon_2024_03_01 Written
           (message 7 None BTN_ADD)
           {| files := {[ get_user_file_path 7 := Parsed (history [sample_first]) ]};
              user_input_state := ∅; admin_user := None |} _).
  cbn [user_input_state message sender]. rewrite lookup_empty. discriminate.
Defined.

Lemma other_senders_untouched_witness :
  user_input_state
    (handle_message admin_only_closed sample_words noon_2024_03_01 Written
       (message 7 None "69 79 95 89") (waiting_for_7 ∅)).2 !! 8
  = user_input_state (waiting_for_7 ∅) !! 8
  ∧ files
      (handle_message admin_only_closed sample_words noon_2024_03_01 Written
         (message 7 None "69 79 95 89") (waiting_for_7 ∅)).2 !! get_user_file_path 8
    = files (waiting_for_7 ∅) !! get_user_file_path 8.
Proof.
  refine (other_senders_untouched admin_only_closed sample_words noon_2024_03_01 Written
           (message 7 None "69 79 95 89") (waiting_for_7 ∅) 8 _).
  discriminate.
Defined.

Lemma add_button_then_values_witness :
  (handle_message admin_only_closed sample_words noon_2024_03_01 Written
     (message 7 None "70.5 80 95 90")
     (handle_message admin_only_closed sample_words noon_2024_03_01 Written
        (message 7 None BTN_ADD)
        {| files := ∅; user_input_state := ∅; admin_user := None |}).2).1
  = Ok (Saved 70.5 80 95 90 None).
Proof.
  refine (proj1 (proj2 (add_button_then_values admin_only_closed sample_words
            noon_2024_03_01 noon_2024_03_01 Written 7 None "70.5 80 95 90"
            {| files := ∅; user_input_state := ∅; admin_user := None |}
            70.5 80 95 90 [] _ _ _ _ _))).
  - reflexivity.
  - cbn [user_input_state]. rewrite lookup_empty. discriminate.
  - vm_compute. reflexivity.
  - vm_compute. reflexivity.
  - reflexivity.
Defined.
